(** * KMSDRM video backend of SDL: hardware cursor and frame presentation

    A shallow embedding of
      - [src/video/kmsdrm/SDL_kmsdrmmouse.c]    (cursor manager), and
      - [src/video/kmsdrm/SDL_kmsdrmopengles.c] (frame presenter),
    followed by the properties of the specification that are stated about
    them.

    Conventions of the embedding.
      - A C integer is a [Z]; the wrap-around of unsigned arithmetic is
        written out with [u32], the narrowing to [int] with [s32].
      - A C [float] is an IEEE 754 binary32 number ([spec_float] with
        precision 24 and maximal exponent 128), every operation rounding to
        nearest-even as the hardware does.
      - A pointer the code tests against [NULL] is an [option]; objects
        obtained from the allocator live in a heap (a finite map from
        addresses), so that aliasing and leaks are visible.
      - The kernel, GBM and EGL are collaborators outside the sources: each
        call to them is recorded in a trace, and what they answer during one
        call of a backend function is given by a record of answers. *)

From Stdlib Require Import ZArith List Lia Bool.
From Stdlib Require Import Floats.SpecFloat.
From stdpp Require Import base option list gmap strings.

Open Scope Z_scope.

(** ** Machine integers *)

(** Reduction of a value to [uint32_t]. *)
Definition u32 (z : Z) : Z := z mod 2 ^ 32.

(** Narrowing conversion to a 32-bit [int] (two's complement). *)
Definition s32 (z : Z) : Z := (z + 2 ^ 31) mod 2 ^ 32 - 2 ^ 31.

(** ** Single-precision floating point

    The operations of C on [float] operands, each evaluated in binary32 and
    rounded to nearest-even (FLT_EVAL_METHOD 0, as on the ARM and x86-64
    targets of this backend). *)

Module F32.

Definition prec : Z := 24.
Definition emax : Z := 128.

(** [(float) n] for an integer: the nearest binary32 number. *)
Definition of_Z (n : Z) : spec_float := binary_normalize prec emax n 0 false.

Definition mul : spec_float -> spec_float -> spec_float := SFmul prec emax.
Definition div : spec_float -> spec_float -> spec_float := SFdiv prec emax.

(** Conversion of a float to an integer type discards the fractional part
    (C11 6.3.1.4).  The conversion of a NaN or an infinity is undefined
    in C; it cannot arise from the channel values below (see
    [premultiply_channel_floor]), and is given the value 0 here. *)
Definition trunc (x : spec_float) : Z :=
  match x with
  | S754_finite s m e =>
      let a := match e with
               | Zneg _ => Z.shiftr (Zpos m) (- e)
               | _ => Z.shiftl (Zpos m) e
               end in
      if s then - a else a
  | _ => 0
  end.

(** [(uint32_t) x]. *)
Definition to_u32 (x : spec_float) : Z := u32 (trunc x).

End F32.

(** ** [alpha_premultiply_ARGB8888] *)

(** [(pixel >> (k << 3)) & 0xFF]: byte [k] of a pixel. *)
Definition component (k : Z) (pixel : Z) : Z :=
  Z.land (Z.shiftr pixel (Z.shiftl k 3)) 0xFF.

(** [(float)A * ((float)C / 255)] stored back into a [uint32_t]. *)
Definition premultiply_channel (A C : Z) : Z :=
  F32.to_u32 (F32.mul (F32.of_Z A) (F32.div (F32.of_Z C) (F32.of_Z 255))).

(** ARGB8888 pixel recomposition. *)
Definition recompose (A R G B : Z) : Z :=
  Z.lor (Z.lor (Z.lor (u32 (Z.shiftl A 24)) (u32 (Z.shiftl R 16)))
               (u32 (Z.shiftl G 8)))
        (u32 (Z.shiftl B 0)).

(** The function takes a pointer to the pixel and overwrites it; the
    embedding maps the old value of the pixel to the new one. *)
Definition alpha_premultiply_ARGB8888 (pixel : Z) : Z :=
  (* Component bytes extraction. *)
  let A := component 3 pixel in
  let R := component 2 pixel in
  let G := component 1 pixel in
  let B := component 0 pixel in
  (* Alpha pre-multiplication of each component. *)
  let R := premultiply_channel A R in
  let G := premultiply_channel A G in
  let B := premultiply_channel A B in
  (* ARGB8888 pixel recomposition. *)
  recompose A R G B.

(** What the specification asks of a channel: the product divided by 255,
    rounded to the nearest integer.  A quotient by 255 is never half-way
    between two integers, so adding 127 before the division rounds to
    nearest. *)
Definition round_div255 (n : Z) : Z := (n + 127) / 255.

(** The pixel the specification describes for the channels (A,R,G,B). *)
Definition premultiplied_spec (A R G B : Z) : Z :=
  recompose A (round_div255 (A * R)) (round_div255 (A * G)) (round_div255 (A * B)).

(** The values a channel can take, and the check that the single-precision
    computation of a channel agrees with the integer quotient rounded
    down. *)
Definition channel_values : list Z := seqZ 0 256.

Definition channel_floor_ok (A C : Z) : bool :=
  premultiply_channel A C =? A * C / 255.

(** ** Control flow and effects of the C functions

    A statement of a C function runs in a state [S], records the calls it
    makes to its collaborators (events of type [E]) and either falls through
    to the next statement, executes a [return], fails an [assert], or makes
    an invalid memory access. *)

Inductive control (R A : Type) : Type :=
| Next (a : A)          (* continue with the next statement *)
| Returned (r : R)      (* a [return r;] was executed *)
| AssertFailed          (* [assert(e)] with [e] false: the process aborts *)
| MemFault.             (* access outside a live object: undefined behaviour *)
Arguments Next {R A} a.
Arguments Returned {R A} r.
Arguments AssertFailed {R A}.
Arguments MemFault {R A}.

Record result (E S R A : Type) : Type := Result {
  ctl : control R A;      (* how the statement ended *)
  final : S;              (* the state it left *)
  trace : list E          (* the calls it made, oldest first *)
}.
Arguments Result {E S R A} ctl final trace.
Arguments ctl {E S R A} r.
Arguments final {E S R A} r.
Arguments trace {E S R A} r.

Definition M (E S R A : Type) : Type := S -> result E S R A.

Section Effects.
Context {E S R : Type}.

Definition ret_M {A} (a : A) : M E S R A := fun s => Result (Next a) s [].

Definition bind_M {A B} (k : A -> M E S R B) (m : M E S R A) : M E S R B :=
  fun s =>
    let r := m s in
    match ctl r with
    | Next a =>
        let r' := k a (final r) in
        Result (ctl r') (final r') (trace r ++ trace r')
    | Returned v => Result (Returned v) (final r) (trace r)
    | AssertFailed => Result AssertFailed (final r) (trace r)
    | MemFault => Result MemFault (final r) (trace r)
    end.

(** [return r;] *)
Definition creturn {A} (r : R) : M E S R A := fun s => Result (Returned r) s [].

(** [assert(b);] *)
Definition cassert (b : bool) : M E S R unit :=
  fun s => Result (if b then Next tt else AssertFailed) s [].

Definition fault {A} : M E S R A := fun s => Result MemFault s [].

Definition get : M E S R S := fun s => Result (Next s) s [].
Definition gets {A} (f : S -> A) : M E S R A := fun s => Result (Next (f s)) s [].
Definition modify (f : S -> S) : M E S R unit := fun s => Result (Next tt) (f s) [].

(** A call to a collaborator is recorded. *)
Definition emit (e : E) : M E S R unit := fun s => Result (Next tt) s [e].

Definition skip : M E S R unit := ret_M tt.

(** [for (x in l) body(x);] *)
Fixpoint for_each {A} (l : list A) (body : A -> M E S R unit) : M E S R unit :=
  match l with
  | [] => skip
  | x :: l' => bind_M (fun _ => for_each l' body) (body x)
  end.

End Effects.

#[global] Instance M_ret {E S R} : MRet (M E S R) := @ret_M E S R.
#[global] Instance M_bind {E S R} : MBind (M E S R) := @bind_M E S R.

(** A call of a function whose body is [body]: the value it returns is the
    value of the call expression. *)
Definition call_function {E S R R'} (body : M E S R' R') : M E S R R' :=
  fun s =>
    let r := body s in
    Result (match ctl r with
            | Next v | Returned v => Next v
            | AssertFailed => AssertFailed
            | MemFault => MemFault
            end) (final r) (trace r).

(** [for (int i = lo; i < hi; i++)] ranges over [seqZ lo (hi - lo)]. *)
Definition for_range {E S R} (lo hi : Z) (body : Z -> M E S R unit) : M E S R unit :=
  for_each (seqZ lo (hi - lo)) body.

(** ** Reasoning about statements

    [wp m s Q]: the result of running [m] from the state [s] satisfies
    [Q]. *)
Definition wp {E S R A} (m : M E S R A) (s : S) (Q : result E S R A -> Prop) : Prop :=
  Q (m s).
#[global] Arguments wp : simpl never.

(** What [Q] asks of a block, asked of the result [r] of its first statement
    and of the rest [k] of the block. *)
Definition then_wp {E S R A B} (k : A -> M E S R B) (Q : result E S R B -> Prop)
    (r : result E S R A) : Prop :=
  match ctl r with
  | Next a =>
      wp (k a) (final r) (fun r' => Q (Result (ctl r') (final r') (trace r ++ trace r')))
  | Returned v => Q (Result (Returned v) (final r) (trace r))
  | AssertFailed => Q (Result AssertFailed (final r) (trace r))
  | MemFault => Q (Result MemFault (final r) (trace r))
  end.

(** * The cursor manager: [SDL_kmsdrmmouse.c] *)

Module Mouse.

(** An address of a live heap object; [NULL] is [None]. *)
Definition ptr : Type := positive.

(** What GBM knows about a buffer object: [gbm_bo_get_stride],
    [gbm_bo_get_handle(bo).u32] and
    [gbm_device_get_fd(gbm_bo_get_device(bo))]. *)
Record gbm_bo : Type := GbmBo {
  bo_stride : Z;
  bo_handle : Z;
  bo_device_fd : Z
}.

(** [KMSDRM_CursorData].  The declaring header is outside the sources; the
    fields are those the code uses, the dimensions and the hot spot taken
    as [int]. *)
Record KMSDRM_CursorData : Type := CursorData {
  bo : option ptr;
  crtc_id : Z;
  hot_x : Z;
  hot_y : Z;
  w : Z;
  h : Z
}.

Definition set_crtc_id (v : Z) (d : KMSDRM_CursorData) : KMSDRM_CursorData :=
  CursorData (bo d) v (hot_x d) (hot_y d) (w d) (h d).
Definition set_bo (v : option ptr) (d : KMSDRM_CursorData) : KMSDRM_CursorData :=
  CursorData v (crtc_id d) (hot_x d) (hot_y d) (w d) (h d).
Definition set_geometry (hx hy cw ch : Z) (d : KMSDRM_CursorData) : KMSDRM_CursorData :=
  CursorData (bo d) (crtc_id d) hx hy cw ch.

(** [SDL_Cursor]: only [driverdata] is used. *)
Record SDL_Cursor : Type := Cursor { driverdata : option ptr }.

(** Objects of the heap.  A staging buffer is accessed through a
    [uint32_t *] only, one aligned word at a time: it is a list of words
    together with its size in bytes. *)
Inductive object : Type :=
| ObjCursor (c : SDL_Cursor)
| ObjCursorData (d : KMSDRM_CursorData)
| ObjBuffer (words : list Z) (bufsize : Z)
| ObjBO (b : gbm_bo).

(** [display->driverdata] and the display of a window. *)
Record SDL_DisplayData : Type := DisplayData { disp_crtc_id : Z }.
Record SDL_VideoDisplay : Type := VideoDisplay { disp_driverdata : option SDL_DisplayData }.
Record SDL_Window : Type := Window {
  window_id : Z;
  window_display : option SDL_VideoDisplay   (* SDL_GetDisplayForWindow *)
}.

Record SDL_Mouse : Type := MouseData {
  mouseID : Z;
  focus : option SDL_Window;
  cur_cursor : option ptr;
  x : Z;
  y : Z
}.

(** The cursor surface.  [SDL_assert] fixes its format to ARGB8888 and its
    pitch to [w * 4]: the pixels are [surf_w * surf_h] words, row after
    row. *)
Record SDL_Surface : Type := Surface {
  surf_w : Z;
  surf_h : Z;
  pixels : list Z;
  must_lock : bool     (* SDL_MUSTLOCK(surface) *)
}.

Record World : Type := MkWorld {
  mouse : option SDL_Mouse;       (* SDL_GetMouse() *)
  heap : gmap ptr object;
  drm_fd : Z                      (* viddata->drm_fd *)
}.

Definition set_heap (f : gmap ptr object -> gmap ptr object) (s : World) : World :=
  MkWorld (mouse s) (f (heap s)) (drm_fd s).
Definition set_mouse (f : SDL_Mouse -> SDL_Mouse) (s : World) : World :=
  MkWorld (f <$> mouse s) (heap s) (drm_fd s).

(** Calls to collaborators, with their arguments and what they answered. *)
Inductive call : Type :=
| E_SetError (msg : string)
| E_OutOfMemory
| E_printf (msg : string)
| E_gbm_device_is_format_supported (ok : bool)
| E_calloc (p : option ptr)
| E_malloc (size : Z) (p : option ptr)
| E_free (p : ptr)
| E_drmGetCap_CURSOR_WIDTH (ret value : Z)
| E_drmGetCap_CURSOR_HEIGHT (ret value : Z)
| E_gbm_bo_create (cw ch : Z) (p : option ptr)
| E_gbm_bo_destroy (p : ptr)
| E_gbm_bo_write (p : ptr) (data : list Z) (size : Z) (ret : Z)
| E_LockSurface (ret : Z)
| E_UnlockSurface
| E_drmModeSetCursor (fd crtc handle cw ch : Z) (ret : Z)
| E_drmModeSetCursor2 (fd crtc handle cw ch hx hy : Z) (ret : Z)
| E_drmModeMoveCursor (fd crtc cx cy : Z) (ret : Z)
| E_SendMouseMotion (window : option SDL_Window) (id : Z) (relative : Z) (mx my : Z).

Definition Stmt (R A : Type) : Type := M call World R A.

(** *** Heap accesses *)

Definition alloc {R} (o : object) : Stmt R ptr :=
  s ← get;
  let p := fresh (dom (heap s)) in
  modify (set_heap <[p := o]>);;
  mret p.

Definition load {R} (p : ptr) : Stmt R object :=
  s ← get;
  match heap s !! p with
  | Some o => mret o
  | None => fault
  end.

Definition load_cursor {R} (p : ptr) : Stmt R SDL_Cursor :=
  o ← load p; match o with ObjCursor c => mret c | _ => fault end.
Definition load_curdata {R} (p : ptr) : Stmt R KMSDRM_CursorData :=
  o ← load p; match o with ObjCursorData d => mret d | _ => fault end.
Definition load_bo {R} (p : ptr) : Stmt R gbm_bo :=
  o ← load p; match o with ObjBO b => mret b | _ => fault end.

Definition store {R} (p : ptr) (o : object) : Stmt R unit :=
  load p;; modify (set_heap <[p := o]>).

Definition dealloc {R} (p : ptr) : Stmt R unit :=
  load p;; modify (set_heap (delete p)).

(** *** Collaborators *)

(** [SDL_SetError] records the message and returns -1. *)
Definition SDL_SetError {R} (msg : string) : Stmt R Z :=
  emit (E_SetError msg);; mret (-1).

Definition SDL_OutOfMemory {R} : Stmt R Z :=
  emit E_OutOfMemory;; mret (-1).

Definition printf {R} (msg : string) : Stmt R unit := emit (E_printf msg).

Definition SDL_GetMouse {R} : Stmt R (option SDL_Mouse) := gets mouse.

Definition SDL_GetDisplayForWindow (win : SDL_Window) : option SDL_VideoDisplay :=
  window_display win.

(** [SDL_calloc] of one object: a zeroed object at a fresh address, or
    [NULL]. *)
Definition SDL_calloc {R} (ok : bool) (zeroed : object) : Stmt R (option ptr) :=
  if ok then p ← alloc zeroed; emit (E_calloc (Some p));; mret (Some p)
  else emit (E_calloc None);; mret None.

(** [SDL_malloc(size)] for a staging buffer: [NULL], or a block at a fresh
    address.  The content of the block is indeterminate: [answer] gives,
    when the allocation succeeds, the word that each index of the block
    happens to hold. *)
Definition SDL_malloc {R} (answer : option (nat -> Z)) (size : Z) : Stmt R (option ptr) :=
  match answer with
  | Some content =>
      p ← alloc (ObjBuffer (content <$> seq 0 (Z.to_nat (size / 4))) size);
      emit (E_malloc size (Some p));; mret (Some p)
  | None => emit (E_malloc size None);; mret None
  end.

Definition SDL_free {R} (p : ptr) : Stmt R unit :=
  dealloc p;; emit (E_free p).

Definition KMSDRM_gbm_bo_create {R} (answer : option gbm_bo) (cw ch : Z)
  : Stmt R (option ptr) :=
  match answer with
  | Some b => p ← alloc (ObjBO b); emit (E_gbm_bo_create cw ch (Some p));; mret (Some p)
  | None => emit (E_gbm_bo_create cw ch None);; mret None
  end.

Definition KMSDRM_gbm_bo_destroy {R} (p : ptr) : Stmt R unit :=
  load_bo p;; dealloc p;; emit (E_gbm_bo_destroy p).

Definition KMSDRM_gbm_bo_get_stride {R} (p : ptr) : Stmt R Z :=
  b ← load_bo p; mret (bo_stride b).

Definition KMSDRM_gbm_bo_get_handle {R} (p : ptr) : Stmt R Z :=
  b ← load_bo p; mret (bo_handle b).

(** [KMSDRM_gbm_device_get_fd(KMSDRM_gbm_bo_get_device(bo))] *)
Definition KMSDRM_gbm_bo_get_device_fd {R} (p : ptr) : Stmt R Z :=
  b ← load_bo p; mret (bo_device_fd b).

Definition KMSDRM_drmModeSetCursor {R} (answer : Z) (fd crtc handle cw ch : Z) : Stmt R Z :=
  emit (E_drmModeSetCursor fd crtc handle cw ch answer);; mret answer.

Definition KMSDRM_drmModeSetCursor2 {R} (answer : Z) (fd crtc handle cw ch hx hy : Z)
  : Stmt R Z :=
  emit (E_drmModeSetCursor2 fd crtc handle cw ch hx hy answer);; mret answer.

Definition KMSDRM_drmModeMoveCursor {R} (answer : Z) (fd crtc cx cy : Z) : Stmt R Z :=
  emit (E_drmModeMoveCursor fd crtc cx cy answer);; mret answer.

(** Modelled from the spec: [SDL_SendMouseMotion] belongs to the pointer
    and event subsystem, which is outside the sources.  The specification
    says that it receives the synthesized motion event and that the warp
    updates the tracked logical pointer position: the event is recorded
    and the position of the mouse becomes the one given. *)
Definition SDL_SendMouseMotion {R} (window : option SDL_Window) (id relative mx my : Z)
  : Stmt R unit :=
  emit (E_SendMouseMotion window id relative mx my);;
  modify (set_mouse (fun m => MouseData (mouseID m) (focus m) (cur_cursor m) mx my)).

(** [if (!p) { handler }] after a call that may answer [NULL]; the handler
    ends in a [return] or in [goto cleanup]. *)
Definition or_else {R A} (handler : Stmt R A) (o : option A) : Stmt R A :=
  match o with
  | Some a => mret a
  | None => handler
  end.

Definition update_curdata {R} (p : ptr) (f : KMSDRM_CursorData -> KMSDRM_CursorData)
  : Stmt R unit :=
  d ← load_curdata p; store p (ObjCursorData (f d)).

(** [((uint32_t * )surface->pixels)[idx]] *)
Definition read_pixel {R} (surface : SDL_Surface) (idx : Z) : Stmt R Z :=
  if bool_decide (0 ≤ idx) then
    match pixels surface !! Z.to_nat idx with
    | Some v => mret v
    | None => fault
    end
  else fault.

(** [SDL_memset(buffer, 0x00, size)] *)
Definition SDL_memset_zero {R} (buffer : ptr) (size : Z) : Stmt R unit :=
  o ← load buffer;
  match o with
  | ObjBuffer ws bufsize =>
      if bool_decide (size ≤ bufsize) then
        store buffer
          (ObjBuffer (replicate (Z.to_nat (size / 4)) 0 ++ drop (Z.to_nat (size / 4)) ws)
                     bufsize)
      else fault
  | _ => fault
  end.

(** [SDL_memcpy(buffer + idx, &pixel, 4)] with [buffer] a [uint32_t *]: the
    four bytes at byte offset [4 * idx] of the staging buffer. *)
Definition SDL_memcpy_pixel {R} (buffer : ptr) (idx : Z) (pixel : Z) : Stmt R unit :=
  o ← load buffer;
  match o with
  | ObjBuffer ws bufsize =>
      if bool_decide (0 ≤ idx ∧ 4 * idx + 4 ≤ bufsize) then
        store buffer (ObjBuffer (<[Z.to_nat idx := pixel]> ws) bufsize)
      else fault
  | _ => fault
  end.

Definition KMSDRM_gbm_bo_write {R} (answer : Z) (p buffer : ptr) (size : Z) : Stmt R Z :=
  load_bo p;;
  o ← load buffer;
  match o with
  | ObjBuffer ws bufsize =>
      if bool_decide (size ≤ bufsize) then
        emit (E_gbm_bo_write p (take (Z.to_nat (size / 4)) ws) size answer);; mret answer
      else fault
  | _ => fault
  end.

(** *** [KMSDRM_CreateCursor] *)

(** What the collaborators answer during one call of
    [KMSDRM_CreateCursor]. *)
Record CreateAnswers : Type := {
  format_supported : bool;          (* KMSDRM_gbm_device_is_format_supported *)
  calloc_cursor : bool;             (* does the first SDL_calloc succeed *)
  calloc_curdata : bool;            (* does the second SDL_calloc succeed *)
  cap_cursor_width : Z * Z;         (* drmGetCap: return value, value written *)
  cap_cursor_height : Z * Z;
  bo_created : option gbm_bo;       (* KMSDRM_gbm_bo_create *)
  malloc_buffer : option (nat -> Z); (* SDL_malloc: NULL, or what the block holds *)
  lock_surface : Z;                 (* SDL_LockSurface *)
  bo_write : Z                      (* KMSDRM_gbm_bo_write *)
}.

(** The statements after the label [cleanup]. *)
Definition cleanup {A} (buffer cursor curdata : option ptr) : Stmt (option ptr) A :=
  (if buffer is Some b then SDL_free b else skip);;
  (if cursor is Some c then SDL_free c else skip);;
  (if curdata is Some d then
     cd ← load_curdata d;
     (if bo cd is Some b then KMSDRM_gbm_bo_destroy b else skip);;
     SDL_free d
   else skip);;
  creturn None.

Definition KMSDRM_CreateCursor (env : CreateAnswers) (surface : SDL_Surface)
    (hotx hoty : Z) : Stmt (option ptr) (option ptr) :=
  emit (E_gbm_device_is_format_supported (format_supported env));;
  (if format_supported env then skip
   else printf "Unsupported pixel format for cursor";; creturn None);;
  cursor ← SDL_calloc (calloc_cursor env) (ObjCursor (Cursor None))
             ≫= or_else (SDL_OutOfMemory;; creturn None);
  curdata ← SDL_calloc (calloc_curdata env) (ObjCursorData (CursorData None 0 0 0 0 0))
             ≫= or_else (SDL_OutOfMemory;; SDL_free cursor;; creturn None);
  (* Find out what GBM cursor size is recommended by the driver.  The two
     queries are joined by [||]: the second is made only when the first
     answered 0. *)
  emit (E_drmGetCap_CURSOR_WIDTH (cap_cursor_width env).1 (cap_cursor_width env).2);;
  (if bool_decide ((cap_cursor_width env).1 ≠ 0) then
     SDL_SetError "Could not get the recommended GBM cursor size";;
     cleanup None (Some cursor) (Some curdata)
   else skip);;
  emit (E_drmGetCap_CURSOR_HEIGHT (cap_cursor_height env).1 (cap_cursor_height env).2);;
  (if bool_decide ((cap_cursor_height env).1 ≠ 0) then
     SDL_SetError "Could not get the recommended GBM cursor size";;
     cleanup None (Some cursor) (Some curdata)
   else skip);;
  let usable_cursor_w := (cap_cursor_width env).2 in
  let usable_cursor_h := (cap_cursor_height env).2 in
  (if bool_decide (usable_cursor_w = 0) || bool_decide (usable_cursor_w = 0) then
     SDL_SetError "Could not get an usable GBM cursor size";;
     cleanup None (Some cursor) (Some curdata)
   else skip);;
  update_curdata curdata (set_geometry hotx hoty (s32 usable_cursor_w) (s32 usable_cursor_h));;
  new_bo ← KMSDRM_gbm_bo_create (bo_created env) (u32 usable_cursor_w) (u32 usable_cursor_h);
  update_curdata curdata (set_bo new_bo);;
  cbo ← or_else (SDL_SetError "Could not create GBM cursor BO";;
                 cleanup None (Some cursor) (Some curdata)) new_bo;
  stride ← KMSDRM_gbm_bo_get_stride cbo;
  cd ← load_curdata curdata;
  let bufsize := u32 (stride * h cd) in
  (* Always use a temp buffer. *)
  buffer ← SDL_malloc (malloc_buffer env) bufsize
             ≫= or_else (SDL_OutOfMemory;; cleanup None (Some cursor) (Some curdata));
  (if must_lock surface then
     emit (E_LockSurface (lock_surface env));;
     if bool_decide (lock_surface env < 0) then
       (* Could not lock surface *)
       cleanup (Some buffer) (Some cursor) (Some curdata)
     else skip
   else skip);;
  (* Clean the whole temporary buffer. *)
  SDL_memset_zero buffer (u32 (stride * h cd));;
  (* Copy from SDL surface to buffer, pre-multiplying by alpha each pixel
     as we go. *)
  for_range 0 (surf_h surface) (fun i =>
    for_range 0 (surf_w surface) (fun j =>
      pixel ← read_pixel surface (i * surf_w surface + j);
      let pixel := alpha_premultiply_ARGB8888 pixel in
      SDL_memcpy_pixel buffer (i * w cd + j) pixel));;
  (if must_lock surface then emit E_UnlockSurface else skip);;
  ret ← KMSDRM_gbm_bo_write (bo_write env) cbo buffer bufsize;
  (if bool_decide (ret ≠ 0) then
     SDL_SetError "Could not write to GBM cursor BO";;
     cleanup (Some buffer) (Some cursor) (Some curdata)
   else skip);;
  (* Free temporary buffer *)
  SDL_free buffer;;
  load_cursor cursor;; store cursor (ObjCursor (Cursor (Some curdata)));;
  creturn (Some cursor).

(** *** [KMSDRM_ShowCursor] *)

(** Show the specified cursor, or hide if cursor is NULL.  [answer] is what
    the kernel answers to the one [drmModeSetCursor] or
    [drmModeSetCursor2] call that a call of this function can make. *)
Definition KMSDRM_ShowCursor (answer : Z) (cursor : option ptr) : Stmt Z Z :=
  mouse ← SDL_GetMouse ≫= or_else (SDL_SetError "No mouse." ≫= creturn);
  fd ← gets drm_fd;
  let display :=
    match focus mouse with
    | Some win => SDL_GetDisplayForWindow win
    | None => None
    end in
  let dispdata :=
    match display with
    | Some d => disp_driverdata d
    | None => None
    end in
  match cursor with
  | None =>
      (* Hide current cursor *)
      (if cur_cursor mouse is Some cc then
         c ← load_cursor cc;
         if driverdata c is Some dd then
           curdata ← load_curdata dd;
           if bool_decide (crtc_id curdata ≠ 0) then
             ret ← KMSDRM_drmModeSetCursor answer fd (crtc_id curdata) 0 0 0;
             (if bool_decide (ret ≠ 0) then
                SDL_SetError "Could not hide current cursor with drmModeSetCursor().";;
                creturn ret
              else skip);;
             (* Mark previous cursor as not-displayed *)
             update_curdata dd (set_crtc_id 0);;
             creturn 0
           else skip
         else skip
       else skip);;
      (* otherwise if possible, hide global cursor *)
      (if dispdata is Some dd then
         if bool_decide (disp_crtc_id dd ≠ 0) then
           ret ← KMSDRM_drmModeSetCursor answer fd (disp_crtc_id dd) 0 0 0;
           (if bool_decide (ret ≠ 0) then
              SDL_SetError "Could not hide display's cursor with drmModeSetCursor().";;
              creturn ret
            else skip);;
           creturn 0
         else skip
       else skip);;
      SDL_SetError "Couldn't find cursor to hide." ≫= creturn
  | Some cursor =>
      (* If cursor != NULL, show new cursor on display *)
      or_else (SDL_SetError "Could not get display for mouse." ≫= creturn) display;;
      dispdata ← or_else (SDL_SetError "Could not get display driverdata." ≫= creturn)
                   dispdata;
      c ← load_cursor cursor;
      dd ← or_else (SDL_SetError "Cursor not initialized properly." ≫= creturn)
             (driverdata c);
      curdata ← load_curdata dd;
      cbo ← or_else (SDL_SetError "Cursor not initialized properly." ≫= creturn)
              (bo curdata);
      handle ← KMSDRM_gbm_bo_get_handle cbo;
      ret ← (if bool_decide (hot_x curdata = 0) && bool_decide (hot_y curdata = 0) then
               KMSDRM_drmModeSetCursor answer fd (disp_crtc_id dispdata) handle
                 (w curdata) (h curdata)
             else
               KMSDRM_drmModeSetCursor2 answer fd (disp_crtc_id dispdata) handle
                 (w curdata) (h curdata) (hot_x curdata) (hot_y curdata));
      (if bool_decide (ret ≠ 0) then
         SDL_SetError "drmModeSetCursor failed.";;
         creturn ret
       else skip);;
      update_curdata dd (set_crtc_id (disp_crtc_id dispdata));;
      creturn 0
  end.

(** *** [KMSDRM_WarpMouseGlobal] and [KMSDRM_WarpMouse] *)

(** [mouse && mouse->cur_cursor && mouse->cur_cursor->driverdata]: the
    mouse and the driver data of its current cursor when all three are
    there. *)
Definition mouse_with_cursor {R} : Stmt R (option (SDL_Mouse * ptr)) :=
  mouse ← SDL_GetMouse;
  match mouse with
  | Some m =>
      match cur_cursor m with
      | Some cc =>
          c ← load_cursor cc;
          mret (match driverdata c with
                | Some dd => Some (m, dd)
                | None => None
                end)
      | None => mret None
      end
  | None => mret None
  end.

(** Warp the mouse to (x,y).  [answer] is what the kernel answers to
    [drmModeMoveCursor]. *)
Definition KMSDRM_WarpMouseGlobal (answer : Z) (wx wy : Z) : Stmt Z Z :=
  found ← mouse_with_cursor;
  match found with
  | Some (mouse, dd) =>
      (* Update internal mouse position. *)
      SDL_SendMouseMotion (focus mouse) (mouseID mouse) 0 wx wy;;
      (* And now update the cursor graphic position on screen. *)
      curdata ← load_curdata dd;
      match bo curdata with
      | Some cbo =>
          if bool_decide (crtc_id curdata ≠ 0) then
            fd ← KMSDRM_gbm_bo_get_device_fd cbo;
            ret ← KMSDRM_drmModeMoveCursor answer fd (crtc_id curdata) wx wy;
            (if bool_decide (ret ≠ 0) then
               SDL_SetError "drmModeMoveCursor() failed.";; skip
             else skip);;
            creturn ret
          else
            SDL_SetError "Cursor is not currently shown." ≫= creturn
      | None => SDL_SetError "Cursor not initialized properly." ≫= creturn
      end
  | None => SDL_SetError "No mouse or current cursor." ≫= creturn
  end.

(** Only one global/fullscreen window is supported. *)
Definition KMSDRM_WarpMouse (answer : Z) (window : option SDL_Window) (wx wy : Z)
  : Stmt unit unit :=
  call_function (KMSDRM_WarpMouseGlobal answer wx wy);; skip.

(** *** Notions used by the properties *)

(** The driver data of the display of the focused window, as
    [KMSDRM_ShowCursor] resolves it. *)
Definition focus_dispdata (m : SDL_Mouse) : option SDL_DisplayData :=
  let display :=
    match focus m with
    | Some win => SDL_GetDisplayForWindow win
    | None => None
    end in
  match display with
  | Some d => disp_driverdata d
  | None => None
  end.

(** The owning-controller field of a cursor: [cursor->driverdata->crtc_id]. *)
Definition owning_crtc (s : World) (cursor : ptr) : option Z :=
  match heap s !! cursor with
  | Some (ObjCursor (Cursor (Some dd))) =>
      match heap s !! dd with
      | Some (ObjCursorData d) => Some (crtc_id d)
      | _ => None
      end
  | _ => None
  end.

(** There is no mouse, or it has no current cursor, or that cursor has no
    driver data: the negation of the test of [KMSDRM_WarpMouseGlobal]. *)
Definition no_current_cursor (s : World) : Prop :=
  match mouse s with
  | None => True
  | Some m =>
      match cur_cursor m with
      | None => True
      | Some cc => heap s !! cc = Some (ObjCursor (Cursor None))
      end
  end.

(** Is an error reported in a trace: [SDL_SetError], [SDL_OutOfMemory] or
    a message printed. *)
Definition is_report (c : call) : bool :=
  match c with
  | E_SetError _ | E_OutOfMemory | E_printf _ => true
  | _ => false
  end.

(** The data handed to [gbm_bo_write] in a trace. *)
Definition written_data (tr : list call) : list (list Z) :=
  omap (fun c => match c with E_gbm_bo_write _ data _ _ => Some data | _ => None end) tr.

(** *** Concrete inputs *)

Definition empty_world : World := MkWorld None ∅ 3.

(** A block that [SDL_malloc] hands out full of stale words. *)
Definition stale_block : option (nat -> Z) := Some (fun k => 3735928559 - Z.of_nat k).

(** The driver recommends a 64x64 cursor; the buffer object has the
    stride of 64 ARGB8888 pixels. *)
Definition answers_64x64 : CreateAnswers :=
  {| format_supported := true; calloc_cursor := true; calloc_curdata := true;
     cap_cursor_width := (0, 64); cap_cursor_height := (0, 64);
     bo_created := Some (GbmBo 256 77 3);
     malloc_buffer := stale_block; lock_surface := 0; bo_write := 0 |}.

(** The same, the buffer object having rows padded to 512 bytes. *)
Definition answers_64x64_padded : CreateAnswers :=
  {| format_supported := true; calloc_cursor := true; calloc_curdata := true;
     cap_cursor_width := (0, 64); cap_cursor_height := (0, 64);
     bo_created := Some (GbmBo 512 77 3);
     malloc_buffer := stale_block; lock_surface := 0; bo_write := 0 |}.

(** The driver reports a usable cursor height of zero. *)
Definition answers_zero_height : CreateAnswers :=
  {| format_supported := true; calloc_cursor := true; calloc_curdata := true;
     cap_cursor_width := (0, 64); cap_cursor_height := (0, 0);
     bo_created := Some (GbmBo 256 77 3);
     malloc_buffer := stale_block; lock_surface := 0; bo_write := 0 |}.

(** One pixel wide, 65 rows high: one row more than the cursor has. *)
Definition surface_1x65 : SDL_Surface := Surface 1 65 (replicate 65 0xFFFFFFFF) false.
Definition surface_1x2 : SDL_Surface := Surface 1 2 [0xFFFFFFFF; 0xFF0000FF] false.
(** The 2x2 image of the specification's scenario. *)
Definition surface_2x2 : SDL_Surface := Surface 2 2 [0x80FF0000; 0; 0; 0] false.
Definition surface_0x0 : SDL_Surface := Surface 0 0 [] false.

(** A mouse whose current cursor (object 1, driver data 2, buffer object
    3) is hidden; no window has the focus. *)
Definition hidden_cursor_heap : gmap ptr object :=
  <[1%positive := ObjCursor (Cursor (Some 2%positive))]>
    (<[2%positive := ObjCursorData (CursorData (Some 3%positive) 0 0 0 64 64)]>
       (<[3%positive := ObjBO (GbmBo 256 77 3)]> ∅)).

Definition unfocused_world : World :=
  MkWorld (Some (MouseData 0 None (Some 1%positive) 10 20)) hidden_cursor_heap 3.

(** The same with the focus on a window shown by the controller 42. *)
Definition window_on_crtc_42 : SDL_Window :=
  Window 1 (Some (VideoDisplay (Some (DisplayData 42)))).

Definition focused_world : World :=
  MkWorld (Some (MouseData 0 (Some window_on_crtc_42) (Some 1%positive) 10 20))
          hidden_cursor_heap 3.

(** The same, the cursor being shown by the controller 42. *)
Definition shown_world : World :=
  MkWorld (Some (MouseData 0 (Some window_on_crtc_42) (Some 1%positive) 10 20))
          (<[2%positive := ObjCursorData (CursorData (Some 3%positive) 42 0 0 64 64)]>
             hidden_cursor_heap) 3.

(** A mouse without a current cursor. *)
Definition cursorless_world : World :=
  MkWorld (Some (MouseData 0 (Some window_on_crtc_42) None 10 20)) ∅ 3.

(** *** [KMSDRM_FreeCursor] *)

(** Free a window manager cursor.  [answer] is what the kernel answers to
    the [drmModeSetCursor] call that hides the cursor; the code ignores
    it. *)
Definition KMSDRM_FreeCursor (answer : Z) (cursor : option ptr) : Stmt unit unit :=
  if cursor is Some cursor then
    c ← load_cursor cursor;
    (if driverdata c is Some dd then
       curdata ← load_curdata dd;
       (if bo curdata is Some cbo then
          (if bool_decide (crtc_id curdata ≠ 0) then
             fd ← KMSDRM_gbm_bo_get_device_fd cbo;
             (* Hide the cursor if previously shown on a CRTC *)
             KMSDRM_drmModeSetCursor answer fd (crtc_id curdata) 0 0 0;;
             update_curdata dd (set_crtc_id 0)
           else skip);;
          KMSDRM_gbm_bo_destroy cbo;;
          update_curdata dd (set_bo None)
        else skip);;
       SDL_free dd
     else skip);;
    SDL_free cursor
  else skip.

(** *** [KMSDRM_MoveCursor] *)

(** This is called when a mouse motion event occurs.  The argument is not
    used: the current cursor of the mouse is moved.  [curdata->bo] is
    handed to [gbm_bo_get_device] without a test, which dereferences it. *)
Definition KMSDRM_MoveCursor (answer : Z) (cursor : option ptr) : Stmt unit unit :=
  found ← mouse_with_cursor;
  match found with
  | Some (mouse, dd) =>
      curdata ← load_curdata dd;
      cbo ← or_else fault (bo curdata);
      fd ← KMSDRM_gbm_bo_get_device_fd cbo;
      ret ← KMSDRM_drmModeMoveCursor answer fd (crtc_id curdata) (x mouse) (y mouse);
      if bool_decide (ret ≠ 0) then
        SDL_SetError "drmModeMoveCursor() failed.";; skip
      else skip
  | None => skip
  end.

(** *** The copy of [KMSDRM_CreateCursor], on the words of the staging buffer *)

(** The positions (row, column) of the pixels of a surface, in the order in
    which the two loops visit them. *)
Definition pixel_positions (surface : SDL_Surface) : list (Z * Z) :=
  i ← seqZ 0 (surf_h surface - 0);
  (fun j => (i, j)) <$> seqZ 0 (surf_w surface - 0).

(** What one turn of the inner loop does to the words: the pixel at
    (row, column) of the surface, premultiplied, goes to the word
    [row * cw + column], [cw] being [curdata->w]. *)
Definition stage_pixel (surface : SDL_Surface) (cw : Z) (ws : list Z) (ij : Z * Z)
  : list Z :=
  <[Z.to_nat (ij.1 * cw + ij.2) :=
      alpha_premultiply_ARGB8888
        (default 0 (pixels surface !! Z.to_nat (ij.1 * surf_w surface + ij.2)))]> ws.

(** Is a call the move of the hardware cursor, a motion event, a call that
    sets or hides the hardware cursor. *)
Definition is_move (c : call) : bool :=
  match c with E_drmModeMoveCursor _ _ _ _ _ => true | _ => false end.
Definition is_motion (c : call) : bool :=
  match c with E_SendMouseMotion _ _ _ _ _ => true | _ => false end.
Definition is_set_cursor (c : call) : bool :=
  match c with
  | E_drmModeSetCursor _ _ _ _ _ _ | E_drmModeSetCursor2 _ _ _ _ _ _ _ _ => true
  | _ => false
  end.

(** What the copy of [KMSDRM_CreateCursor] needs of a position (row, column)
    for not faulting there: the pixel is inside the pixel data of the
    surface, and its word inside the staging buffer of [size] bytes. *)
Definition copy_ok (surface : SDL_Surface) (cw size : Z) (ij : Z * Z) : Prop :=
  0 <= ij.1 * surf_w surface + ij.2 /\
  is_Some (pixels surface !! Z.to_nat (ij.1 * surf_w surface + ij.2)) /\
  0 <= ij.1 * cw + ij.2 /\ 4 * (ij.1 * cw + ij.2) + 4 <= size.

End Mouse.

(** * The frame presenter: [SDL_kmsdrmopengles.c] *)

Module GLES.

(** A GBM buffer object of the window surface, an EGL sync object: opaque
    handles; [NULL] is [None]. *)
Definition gbm_bo : Type := positive.
Definition EGLSyncKHR : Type := positive.

Definition EGL_NO_NATIVE_FENCE_FD_ANDROID : Z := -1.

(** [window->driverdata], with the fields the presenter uses. *)
Record SDL_WindowData : Type := WindowData {
  egl_surface_dirty : bool;
  bo : option gbm_bo;
  next_bo : option gbm_bo;
  src_w : Z;
  src_h : Z;
  output_w : Z;
  output_h : Z;
  output_x : Z
}.

Definition set_next_bo (v : option gbm_bo) (d : SDL_WindowData) : SDL_WindowData :=
  WindowData (egl_surface_dirty d) (bo d) v
             (src_w d) (src_h d) (output_w d) (output_h d) (output_x d).
Definition set_bo (v : option gbm_bo) (d : SDL_WindowData) : SDL_WindowData :=
  WindowData (egl_surface_dirty d) v (next_bo d)
             (src_w d) (src_h d) (output_w d) (output_h d) (output_x d).

(** The driver data of the display; [crtc_id] stands for
    [dispdata->crtc->crtc->crtc_id], and [kms_out_fence_fd_addr] for the
    address [&dispdata->kms_out_fence_fd]. *)
Record SDL_DisplayData : Type := DisplayData {
  gpu_fence : option EGLSyncKHR;
  kms_fence : option EGLSyncKHR;
  kms_in_fence_fd : Z;
  kms_out_fence_fd : Z;
  kms_out_fence_fd_addr : Z;
  display_plane : Z;
  crtc_id : Z;
  connector : Z
}.

Definition set_gpu_fence (v : option EGLSyncKHR) (d : SDL_DisplayData) : SDL_DisplayData :=
  DisplayData v (kms_fence d) (kms_in_fence_fd d) (kms_out_fence_fd d)
              (kms_out_fence_fd_addr d) (display_plane d) (crtc_id d) (connector d).
Definition set_kms_fence (v : option EGLSyncKHR) (d : SDL_DisplayData) : SDL_DisplayData :=
  DisplayData (gpu_fence d) v (kms_in_fence_fd d) (kms_out_fence_fd d)
              (kms_out_fence_fd_addr d) (display_plane d) (crtc_id d) (connector d).
Definition set_kms_in_fence_fd (v : Z) (d : SDL_DisplayData) : SDL_DisplayData :=
  DisplayData (gpu_fence d) (kms_fence d) v (kms_out_fence_fd d)
              (kms_out_fence_fd_addr d) (display_plane d) (crtc_id d) (connector d).
Definition set_kms_out_fence_fd (v : Z) (d : SDL_DisplayData) : SDL_DisplayData :=
  DisplayData (gpu_fence d) (kms_fence d) (kms_in_fence_fd d) v
              (kms_out_fence_fd_addr d) (display_plane d) (crtc_id d) (connector d).

(** [_this->egl_data] *)
Record SDL_EGL_VideoData : Type := EglData { egl_swapinterval : Z }.

Record KMSDRM_PlaneInfo : Type := PlaneInfo {
  plane : Z;
  info_crtc_id : Z;
  fb_id : Z;
  info_src_w : Z;
  info_src_h : Z;
  crtc_w : Z;
  crtc_h : Z;
  crtc_x : Z
}.

Record World : Type := MkWorld {
  egl_data : option SDL_EGL_VideoData;
  windata : SDL_WindowData;
  dispdata : SDL_DisplayData
}.

Definition set_egl_data (v : option SDL_EGL_VideoData) (s : World) : World :=
  MkWorld v (windata s) (dispdata s).
Definition on_windata (f : SDL_WindowData -> SDL_WindowData) (s : World) : World :=
  MkWorld (egl_data s) (f (windata s)) (dispdata s).
Definition on_dispdata (f : SDL_DisplayData -> SDL_DisplayData) (s : World) : World :=
  MkWorld (egl_data s) (windata s) (f (dispdata s)).

(** Calls to collaborators, with their arguments and what they answered. *)
Inductive call : Type :=
| E_SetError (msg : string)
| E_EGL_SetError (msg fn : string)
| E_printf (msg : string)
| E_CreateSurfaces
| E_eglCreateSyncKHR (fd : Z) (fence : option EGLSyncKHR)
| E_eglSwapBuffers (ok : bool)
| E_eglDupNativeFenceFDANDROID (fence : option EGLSyncKHR) (fd : Z)
| E_eglDestroySyncKHR (fence : option EGLSyncKHR)
| E_eglWaitSyncKHR (fence : option EGLSyncKHR)
| E_lock_front_buffer (b : option gbm_bo)
| E_release_buffer (b : gbm_bo)
| E_FBFromBO (b : gbm_bo) (fb : option Z)
| E_set_plane_props (info : KMSDRM_PlaneInfo) (ret : Z)
| E_add_connector_property (obj : Z) (name : string) (value : Z) (ret : Z)
| E_add_crtc_property (obj : Z) (name : string) (value : Z) (ret : Z)
| E_add_plane_property (obj : Z) (name : string) (value : Z) (ret : Z)
| E_atomic_commit (blocking : bool) (ret : Z).

Definition Stmt (R A : Type) : Type := M call World R A.

(** *** Collaborators *)

Definition SDL_SetError {R} (msg : string) : Stmt R Z :=
  emit (E_SetError msg);; mret (-1).

Definition SDL_EGL_SetError {R} (msg fn : string) : Stmt R Z :=
  emit (E_EGL_SetError msg fn);; mret (-1).

Definition printf {R} (msg : string) : Stmt R unit := emit (E_printf msg).

Definition or_else {R A} (handler : Stmt R A) (o : option A) : Stmt R A :=
  match o with
  | Some a => mret a
  | None => handler
  end.

(** A call through [_this->egl_data] dereferences it. *)
Definition through_egl_data {R} : Stmt R SDL_EGL_VideoData :=
  gets egl_data ≫= or_else fault.

(** Modelled from the spec: [KMSDRM_CreateSurfaces] is outside the
    sources; the specification says only that a render surface marked
    stale is recreated.  The call is recorded; the surfaces themselves are
    not represented, and the buffer bookkeeping of the window ([bo],
    [next_bo]) is left as it is. *)
Definition KMSDRM_CreateSurfaces {R} : Stmt R unit := emit E_CreateSurfaces.

Definition eglCreateSyncKHR {R} (answer : option EGLSyncKHR) (fd : Z)
  : Stmt R (option EGLSyncKHR) :=
  through_egl_data;; emit (E_eglCreateSyncKHR fd answer);; mret answer.

Definition eglSwapBuffers {R} (answer : bool) : Stmt R bool :=
  through_egl_data;; emit (E_eglSwapBuffers answer);; mret answer.

Definition eglDupNativeFenceFDANDROID {R} (answer : Z) (fence : option EGLSyncKHR)
  : Stmt R Z :=
  through_egl_data;; emit (E_eglDupNativeFenceFDANDROID fence answer);; mret answer.

Definition eglDestroySyncKHR {R} (fence : option EGLSyncKHR) : Stmt R unit :=
  through_egl_data;; emit (E_eglDestroySyncKHR fence).

Definition eglWaitSyncKHR {R} (fence : option EGLSyncKHR) : Stmt R unit :=
  through_egl_data;; emit (E_eglWaitSyncKHR fence).

Definition KMSDRM_gbm_surface_lock_front_buffer {R} (answer : option gbm_bo)
  : Stmt R (option gbm_bo) :=
  emit (E_lock_front_buffer answer);; mret answer.

Definition KMSDRM_gbm_surface_release_buffer {R} (b : gbm_bo) : Stmt R unit :=
  emit (E_release_buffer b).

Definition KMSDRM_FBFromBO {R} (answer : option Z) (b : gbm_bo) : Stmt R (option Z) :=
  emit (E_FBFromBO b answer);; mret answer.

Definition drm_atomic_set_plane_props {R} (answer : Z) (info : KMSDRM_PlaneInfo)
  : Stmt R Z :=
  emit (E_set_plane_props info answer);; mret answer.

Definition add_connector_property {R} (answer : Z) (obj : Z) (name : string) (value : Z)
  : Stmt R Z :=
  emit (E_add_connector_property obj name value answer);; mret answer.

Definition add_crtc_property {R} (answer : Z) (obj : Z) (name : string) (value : Z)
  : Stmt R Z :=
  emit (E_add_crtc_property obj name value answer);; mret answer.

Definition add_plane_property {R} (answer : Z) (obj : Z) (name : string) (value : Z)
  : Stmt R Z :=
  emit (E_add_plane_property obj name value answer);; mret answer.

Definition drm_atomic_commit {R} (answer : Z) (blocking : bool) : Stmt R Z :=
  emit (E_atomic_commit blocking answer);; mret answer.

(** *** [KMSDRM_GLES_SetSwapInterval] *)

Definition KMSDRM_GLES_SetSwapInterval (interval : Z) : Stmt Z Z :=
  egl ← gets egl_data ≫= or_else (SDL_SetError "EGL not initialized" ≫= creturn);
  (if bool_decide (interval = 0) || bool_decide (interval = 1) then
     modify (set_egl_data (Some (EglData interval)))
   else
     SDL_SetError "Only swap intervals of 0 or 1 are supported" ≫= creturn);;
  creturn 0.

(** *** The atomic functions block *)

Definition create_fence (answer : option EGLSyncKHR) (fd : Z)
  : Stmt (option EGLSyncKHR) (option EGLSyncKHR) :=
  fence ← eglCreateSyncKHR answer fd;
  cassert (bool_decide (is_Some fence));;
  creturn fence.

(** What the collaborators answer during one call of
    [KMSDRM_GLES_SwapWindow] or [KMSDRM_GLES_SwapWindowDB]. *)
Record SwapAnswers : Type := {
  gpu_fence_created : option EGLSyncKHR;   (* eglCreateSyncKHR, GPU fence *)
  swap_buffers : bool;                     (* eglSwapBuffers *)
  dup_fence_fd : Z;                        (* eglDupNativeFenceFDANDROID *)
  front_buffer : option gbm_bo;            (* gbm_surface_lock_front_buffer *)
  framebuffer : option Z;                  (* KMSDRM_FBFromBO: the fb_id *)
  plane_props : Z;                         (* drm_atomic_set_plane_props *)
  connector_crtc_id : Z;                   (* add_connector_property CRTC_ID *)
  crtc_active : Z;                         (* add_crtc_property ACTIVE *)
  crtc_out_fence_ptr : Z;                  (* add_crtc_property OUT_FENCE_PTR *)
  plane_in_fence_fd : Z;                   (* add_plane_property IN_FENCE_FD *)
  atomic_commit : Z;                       (* drm_atomic_commit *)
  out_fence_fd : Z;                        (* stored by the kernel through
                                              OUT_FENCE_PTR on a commit *)
  kms_fence_created : option EGLSyncKHR    (* eglCreateSyncKHR, KMS fence *)
}.

(** Add the pageflip to the request list. *)
Definition pageflip_info (wd : SDL_WindowData) (dd : SDL_DisplayData) (fb : Z)
  : KMSDRM_PlaneInfo :=
  PlaneInfo (display_plane dd) (crtc_id dd) fb
            (src_w wd) (src_h wd) (output_w wd) (output_h wd) (output_x wd).

Definition KMSDRM_GLES_SwapWindow (env : SwapAnswers) : Stmt Z Z :=
  (* Recreate the GBM / EGL surfaces if the window has been reconfigured. *)
  wd ← gets windata;
  (if egl_surface_dirty wd then KMSDRM_CreateSurfaces else skip);;
  (* Create the fence that will be inserted in the cmdstream exactly at
     the end of the gl commands that form a frame. *)
  fence ← call_function (create_fence (gpu_fence_created env)
                                      EGL_NO_NATIVE_FENCE_FD_ANDROID);
  modify (on_dispdata (set_gpu_fence fence));;
  cassert (bool_decide (is_Some fence));;
  (* Mark, at EGL level, the buffer that we want to become the new front
     buffer. *)
  swapped ← eglSwapBuffers (swap_buffers env);
  (if (swapped : bool) then skip
   else SDL_SetError "Failed to swap EGL buffers" ≫= creturn);;
  (* The in-fence fd for the atomic ioctl. *)
  in_fd ← eglDupNativeFenceFDANDROID (dup_fence_fd env) fence;
  modify (on_dispdata (set_kms_in_fence_fd in_fd));;
  eglDestroySyncKHR fence;;
  cassert (bool_decide (in_fd ≠ -1));;
  (* Lock the buffer that is marked by eglSwapBuffers() to become the next
     front buffer. *)
  locked ← KMSDRM_gbm_surface_lock_front_buffer (front_buffer env);
  modify (on_windata (set_next_bo locked));;
  nbo ← or_else (SDL_SetError "Failed to lock frontbuffer" ≫= creturn) locked;
  fb ← KMSDRM_FBFromBO (framebuffer env) nbo
         ≫= or_else (SDL_SetError "Failed to get a new framebuffer from BO" ≫= creturn);
  (* Add the pageflip to the request list. *)
  wd ← gets windata;
  dd ← gets dispdata;
  ret ← drm_atomic_set_plane_props (plane_props env) (pageflip_info wd dd fb);
  (if bool_decide (ret ≠ 0) then
     SDL_SetError "Failed to request prop changes for setting plane buffer and CRTC"
       ≫= creturn
   else skip);;
  (* Re-connect the connector to the CRTC, and activate the CRTC again. *)
  r ← add_connector_property (connector_crtc_id env) (connector dd) "CRTC_ID" (crtc_id dd);
  (if bool_decide (r < 0) then
     SDL_SetError "Failed to set CONNECTOR prop CRTC_ID to zero before buffer destruction";;
     skip
   else skip);;
  r ← add_crtc_property (crtc_active env) (crtc_id dd) "ACTIVE" 1;
  (if bool_decide (r < 0) then
     SDL_SetError "Failed to set CRTC prop ACTIVE to zero before buffer destruction";;
     skip
   else skip);;
  (* Set the IN_FENCE and OUT_FENCE props only here. *)
  (if bool_decide (kms_in_fence_fd dd ≠ -1) then
     r ← add_crtc_property (crtc_out_fence_ptr env) (crtc_id dd) "OUT_FENCE_PTR"
           (kms_out_fence_fd_addr dd);
     (if bool_decide (r < 0) then
        SDL_SetError "Failed to set CRTC OUT_FENCE_PTR prop" ≫= creturn
      else skip);;
     r ← add_plane_property (plane_in_fence_fd env) (display_plane dd) "IN_FENCE_FD"
           (kms_in_fence_fd dd);
     (if bool_decide (r < 0) then
        SDL_SetError "Failed to set plane IN_FENCE_FD prop" ≫= creturn
      else skip)
   else skip);;
  (* Issue the one and only atomic commit where all changes will be
     requested!  Non-blocking, for triple buffering. *)
  ret ← drm_atomic_commit (atomic_commit env) false;
  (if bool_decide (ret ≠ 0) then
     SDL_SetError "Failed to issue atomic commit on pageflip" ≫= creturn
   else skip);;
  (* The kernel has stored the out-fence through OUT_FENCE_PTR. *)
  modify (on_dispdata (set_kms_out_fence_fd (out_fence_fd env)));;
  (* Release the last front buffer so EGL can chose it as back buffer and
     render on it again. *)
  wd ← gets windata;
  (if bo wd is Some old then KMSDRM_gbm_surface_release_buffer old else skip);;
  (* Take note of current front buffer, so we can free it next time we
     come here. *)
  modify (on_windata (fun d => set_bo (next_bo d) d));;
  (* Import the kms fence from the out fence fd. *)
  dd ← gets dispdata;
  kfence ← call_function (create_fence (kms_fence_created env) (kms_out_fence_fd dd));
  modify (on_dispdata (set_kms_fence kfence));;
  cassert (bool_decide (is_Some kfence));;
  (* Reset out fence FD value because the fence is now away from us, on
     the driver side. *)
  modify (on_dispdata (set_kms_out_fence_fd (-1)));;
  (* Tell the GPU to wait until the requested pageflip has completed. *)
  eglWaitSyncKHR kfence;;
  creturn ret.

Definition KMSDRM_GLES_SwapWindowDB (env : SwapAnswers) : Stmt Z Z :=
  (* Recreate the GBM / EGL surfaces if the window has been reconfigured. *)
  wd ← gets windata;
  (if egl_surface_dirty wd then KMSDRM_CreateSurfaces else skip);;
  (* Mark, at EGL level, the buffer that we want to become the new front
     buffer. *)
  swapped ← eglSwapBuffers (swap_buffers env);
  (if (swapped : bool) then skip
   else
     SDL_EGL_SetError "Failed to swap EGL buffers" "eglSwapBuffers";;
     printf "SwapWindow() failed: %s\n");;
  (* Lock the buffer that is marked by eglSwapBuffers() to become the next
     front buffer. *)
  locked ← KMSDRM_gbm_surface_lock_front_buffer (front_buffer env);
  modify (on_windata (set_next_bo locked));;
  nbo ← or_else (SDL_SetError "Failed to lock frontbuffer" ≫= creturn) locked;
  fb ← KMSDRM_FBFromBO (framebuffer env) nbo
         ≫= or_else (SDL_SetError "Failed to get a new framebuffer BO" ≫= creturn);
  (* Add the pageflip to the request list. *)
  wd ← gets windata;
  dd ← gets dispdata;
  ret ← drm_atomic_set_plane_props (plane_props env) (pageflip_info wd dd fb);
  (if bool_decide (ret ≠ 0) then
     SDL_SetError "Failed to request prop changes for setting plane buffer and CRTC"
       ≫= creturn
   else skip);;
  (* Re-connect the connector to the CRTC, and activate the CRTC again. *)
  r ← add_connector_property (connector_crtc_id env) (connector dd) "CRTC_ID" (crtc_id dd);
  (if bool_decide (r < 0) then
     SDL_SetError "Failed to set CONNECTOR prop CRTC_ID to zero before buffer destruction";;
     skip
   else skip);;
  r ← add_crtc_property (crtc_active env) (crtc_id dd) "ACTIVE" 1;
  (if bool_decide (r < 0) then
     SDL_SetError "Failed to set CRTC prop ACTIVE to zero before buffer destruction";;
     skip
   else skip);;
  (* Issue the one and only atomic commit where all changes will be
     requested!  Blocking for double buffering: won't return until
     completed. *)
  ret ← drm_atomic_commit (atomic_commit env) true;
  (if bool_decide (ret ≠ 0) then
     SDL_SetError "Failed to issue atomic commit" ≫= creturn
   else skip);;
  (* Release last front buffer so EGL can chose it as back buffer and
     render on it again. *)
  wd ← gets windata;
  (if bo wd is Some old then KMSDRM_gbm_surface_release_buffer old else skip);;
  (* Take note of current front buffer, so we can free it next time we
     come here. *)
  modify (on_windata (fun d => set_bo (next_bo d) d));;
  creturn ret.

(** *** Notions used by the properties *)

Definition is_commit (c : call) : bool :=
  match c with E_atomic_commit _ _ => true | _ => false end.

Definition is_lock (c : call) : bool :=
  match c with E_lock_front_buffer _ => true | _ => false end.

(** How many calls of a trace satisfy [p]. *)
Definition count (p : call -> bool) (tr : list call) : nat :=
  length (List.filter p tr).

(** The buffer objects released in a trace, oldest first. *)
Definition releases (tr : list call) : list gbm_bo :=
  omap (fun c => match c with E_release_buffer b => Some b | _ => None end) tr.

(** What is asked of one call of a present function that started with the
    front buffer [old] and ended in the result [r]:
    - when its atomic commit failed, nothing was released and the recorded
      front buffer is still [old];
    - a buffer it released is [old], released right after a commit that
      returned 0, itself after the lock of the new buffer, which is now
      the recorded front buffer;
    - when its atomic commit returned 0, the buffer it locked is the
      recorded front buffer and [old], if any, is what it released. *)
Definition front_buffer_discipline (old : option gbm_bo) (r : result call World Z Z)
  : Prop :=
  (forall blk ret, In (E_atomic_commit blk ret) (trace r) -> ret <> 0 ->
     releases (trace r) = [] /\ bo (windata (final r)) = old)
  /\ (forall b, In (E_release_buffer b) (trace r) ->
       old = Some b /\
       exists pre post blk nb,
         trace r = pre ++ E_atomic_commit blk 0 :: E_release_buffer b :: post /\
         In (E_lock_front_buffer (Some nb)) pre /\
         releases pre = [] /\ releases post = [] /\
         bo (windata (final r)) = Some nb)
  /\ (forall blk, In (E_atomic_commit blk 0) (trace r) ->
       exists nb, In (E_lock_front_buffer (Some nb)) (trace r) /\
                  bo (windata (final r)) = Some nb /\
                  releases (trace r) = match old with Some b => [b] | None => [] end).

(** The calls on EGL sync objects. *)
Definition is_sync (c : call) : bool :=
  match c with
  | E_eglCreateSyncKHR _ _ | E_eglDupNativeFenceFDANDROID _ _
  | E_eglDestroySyncKHR _ | E_eglWaitSyncKHR _ => true
  | _ => false
  end.

(** The calls that add a property to the atomic request. *)
Definition is_property (c : call) : bool :=
  match c with
  | E_add_connector_property _ _ _ _ | E_add_crtc_property _ _ _ _
  | E_add_plane_property _ _ _ _ => true
  | _ => false
  end.

(** The steps of a present on the buffers: the swap, the lock, the
    framebuffer, the plane request, the commit and the release. *)
Definition is_step (c : call) : bool :=
  match c with
  | E_eglSwapBuffers _ | E_lock_front_buffer _ | E_FBFromBO _ _
  | E_set_plane_props _ _ | E_atomic_commit _ _ | E_release_buffer _ => true
  | _ => false
  end.

(** The reports of an error. *)
Definition is_report (c : call) : bool :=
  match c with
  | E_SetError _ | E_EGL_SetError _ _ | E_printf _ => true
  | _ => false
  end.

(** The steps of a present and the properties added to the atomic request,
    together: all that a present does but for the fences and the reports. *)
Definition is_request (c : call) : bool := is_step c || is_property c.

(** *** Concrete inputs *)

(** A window showing the buffer object 7. *)
Definition showing_bo_7 : World :=
  MkWorld (Some (EglData 1))
          (WindowData false (Some 7%positive) None 640 480 640 480 0)
          (DisplayData None None (-1) (-1) 4096 31 42 53).

(** Every collaborator succeeds; the surface hands out the buffer
    object 8. *)
Definition all_succeed : SwapAnswers :=
  {| gpu_fence_created := Some 1%positive; swap_buffers := true; dup_fence_fd := 5;
     front_buffer := Some 8%positive; framebuffer := Some 90; plane_props := 0;
     connector_crtc_id := 0; crtc_active := 0; crtc_out_fence_ptr := 0;
     plane_in_fence_fd := 0; atomic_commit := 0; out_fence_fd := 6;
     kms_fence_created := Some 2%positive |}.

(** The same, [eglSwapBuffers] failing. *)
Definition swap_fails : SwapAnswers :=
  {| gpu_fence_created := Some 1%positive; swap_buffers := false; dup_fence_fd := 5;
     front_buffer := Some 8%positive; framebuffer := Some 90; plane_props := 0;
     connector_crtc_id := 0; crtc_active := 0; crtc_out_fence_ptr := 0;
     plane_in_fence_fd := 0; atomic_commit := 0; out_fence_fd := 6;
     kms_fence_created := Some 2%positive |}.

(** The same, the atomic commit failing. *)
Definition commit_fails : SwapAnswers :=
  {| gpu_fence_created := Some 1%positive; swap_buffers := true; dup_fence_fd := 5;
     front_buffer := Some 8%positive; framebuffer := Some 90; plane_props := 0;
     connector_crtc_id := 0; crtc_active := 0; crtc_out_fence_ptr := 0;
     plane_in_fence_fd := 0; atomic_commit := -22; out_fence_fd := 6;
     kms_fence_created := Some 2%positive |}.

(** Every collaborator succeeds but the last: the KMS fence is not
    created. *)
Definition no_kms_fence : SwapAnswers :=
  {| gpu_fence_created := Some 1%positive; swap_buffers := true; dup_fence_fd := 5;
     front_buffer := Some 8%positive; framebuffer := Some 90; plane_props := 0;
     connector_crtc_id := 0; crtc_active := 0; crtc_out_fence_ptr := 0;
     plane_in_fence_fd := 0; atomic_commit := 0; out_fence_fd := 6;
     kms_fence_created := None |}.

End GLES.

(** * Properties *)

(** ** The pixel conversion *)

Lemma floor_table_checked :
  forallb (fun a => forallb (channel_floor_ok a) channel_values) channel_values = true.
Proof. vm_compute. reflexivity. Qed.

Lemma channel_values_spec (v : Z) : 0 <= v < 256 -> In v channel_values.
Proof. intros Hv. apply list_elem_of_In, elem_of_seqZ. lia. Qed.

(** The single-precision product, truncated, is the integer quotient
    rounded down, for all 65536 pairs of channel values. *)
Lemma premultiply_channel_floor (A C : Z) :
  0 <= A < 256 -> 0 <= C < 256 -> premultiply_channel A C = A * C / 255.
Proof.
  intros HA HC.
  apply Z.eqb_eq. change (channel_floor_ok A C = true).
  generalize C (channel_values_spec C HC). apply forallb_forall.
  generalize A (channel_values_spec A HA). apply forallb_forall.
  exact floor_table_checked.
Qed.

Lemma floor_range (A C : Z) : 0 <= A < 256 -> 0 <= C < 256 -> 0 <= A * C / 255 <= C.
Proof.
  intros HA HC. split.
  - apply Z.div_pos; nia.
  - apply Z.div_le_upper_bound; nia.
Qed.

Lemma testbit_255 (n : Z) : 0 <= n -> Z.testbit 255 n = (n <? 8).
Proof.
  intros Hn. change 255 with (Z.ones 8).
  destruct (Z.ltb_spec n 8).
  - apply Z.ones_spec_low. lia.
  - apply Z.ones_spec_high. lia.
Qed.

Lemma testbit_above (v k n : Z) : 0 <= v < 2 ^ k -> 0 <= k <= n -> Z.testbit v n = false.
Proof.
  intros Hv Hn. destruct (decide (v = 0)) as [->|Hne].
  - apply Z.bits_0.
  - apply Z.bits_above_log2; [lia|].
    assert (Z.log2 v < k); [|lia]. apply Z.log2_lt_pow2; lia.
Qed.

Lemma testbit_component (k p n : Z) :
  0 <= k -> 0 <= n ->
  Z.testbit (component k p) n = (n <? 8) && Z.testbit p (n + 8 * k).
Proof.
  intros Hk Hn. unfold component.
  rewrite Z.land_spec, testbit_255 by done.
  rewrite Z.shiftr_spec by done.
  rewrite Z.shiftl_mul_pow2 by lia. change (2 ^ 3) with 8.
  rewrite andb_comm. do 2 f_equal. lia.
Qed.

Lemma component_range (k p : Z) : 0 <= component k p < 256.
Proof.
  unfold component. change 255 with (Z.ones 8). rewrite Z.land_ones by lia.
  change (2 ^ 8) with 256. apply Z.mod_pos_bound. lia.
Qed.

Lemma u32_shiftl_byte (v s : Z) :
  0 <= v < 256 -> 0 <= s <= 24 -> u32 (Z.shiftl v s) = Z.shiftl v s.
Proof.
  intros Hv Hs. unfold u32. rewrite Z.shiftl_mul_pow2 by lia.
  apply Z.mod_small. split; [apply Z.mul_nonneg_nonneg; lia|].
  assert (2 ^ s <= 2 ^ 24) by (apply Z.pow_le_mono_r; lia).
  change (2 ^ 32) with (256 * 2 ^ 24). nia.
Qed.

Lemma testbit_shiftl_byte (v s n : Z) :
  0 <= v < 256 -> 0 <= s -> 0 <= n ->
  Z.testbit (Z.shiftl v s) n = (s <=? n) && (n <? s + 8) && Z.testbit v (n - s).
Proof.
  intros Hv Hs Hn. rewrite Z.shiftl_spec by done.
  destruct (Z.leb_spec s n); simpl.
  - destruct (Z.ltb_spec n (s + 8)); simpl; [done|].
    apply (testbit_above v 8); lia.
  - apply Z.testbit_neg_r. lia.
Qed.

Ltac case_ltb :=
  repeat match goal with
  | |- context [?a <? ?b] => destruct (Z.ltb_spec a b)
  | |- context [?a <=? ?b] => destruct (Z.leb_spec a b)
  end.

Lemma testbit_recompose (A R G B n : Z) :
  0 <= A < 256 -> 0 <= R < 256 -> 0 <= G < 256 -> 0 <= B < 256 -> 0 <= n ->
  Z.testbit (recompose A R G B) n =
    if n <? 8 then Z.testbit B n
    else if n <? 16 then Z.testbit G (n - 8)
    else if n <? 24 then Z.testbit R (n - 16)
    else if n <? 32 then Z.testbit A (n - 24)
    else false.
Proof.
  intros HA HR HG HB Hn. unfold recompose.
  rewrite !u32_shiftl_byte by lia.
  rewrite !Z.lor_spec, !testbit_shiftl_byte by lia.
  case_ltb; simpl; rewrite ?orb_false_r, ?Z.sub_0_r; try lia; reflexivity.
Qed.

(** Extraction after recomposition gives the components back. *)
Lemma component_recompose (A R G B : Z) :
  0 <= A < 256 -> 0 <= R < 256 -> 0 <= G < 256 -> 0 <= B < 256 ->
  component 3 (recompose A R G B) = A /\
  component 2 (recompose A R G B) = R /\
  component 1 (recompose A R G B) = G /\
  component 0 (recompose A R G B) = B.
Proof.
  intros HA HR HG HB.
  repeat split; apply Z.bits_inj'; intros n Hn;
    rewrite testbit_component, testbit_recompose by lia;
    (destruct (Z.ltb_spec n 8); simpl;
     [| symmetry; apply (testbit_above _ 8); lia]);
    case_ltb; try lia; f_equal; lia.
Qed.

(** A 32-bit pixel is the recomposition of its components. *)
Lemma recompose_components (p : Z) :
  0 <= p < 2 ^ 32 ->
  recompose (component 3 p) (component 2 p) (component 1 p) (component 0 p) = p.
Proof.
  intros Hp. apply Z.bits_inj'; intros n Hn.
  rewrite testbit_recompose by (auto using component_range).
  case_ltb; rewrite ?testbit_component by lia; case_ltb;
    simpl; try lia; try (f_equal; lia).
  symmetry. apply (testbit_above p 32); lia.
Qed.

(** What the function computes, for any value of the pixel. *)
Lemma alpha_premultiply_pixel (pixel : Z) :
  alpha_premultiply_ARGB8888 pixel =
    recompose (component 3 pixel)
              (component 3 pixel * component 2 pixel / 255)
              (component 3 pixel * component 1 pixel / 255)
              (component 3 pixel * component 0 pixel / 255).
Proof.
  unfold alpha_premultiply_ARGB8888.
  rewrite !premultiply_channel_floor by apply component_range. reflexivity.
Qed.

(** C2, as the code has it: for every input pixel with channels (A,R,G,B),
    each in [0,255], [alpha_premultiply_ARGB8888] produces the pixel
    (A, floor(A*R/255), floor(A*G/255), floor(A*B/255)): each colour channel
    is the product of the channel with alpha divided by 255, the fractional
    part discarded, and the alpha channel is unchanged. *)
Theorem alpha_premultiply_floor (A R G B : Z) :
  0 <= A < 256 -> 0 <= R < 256 -> 0 <= G < 256 -> 0 <= B < 256 ->
  alpha_premultiply_ARGB8888 (recompose A R G B) =
    recompose A (A * R / 255) (A * G / 255) (A * B / 255).
Proof.
  intros HA HR HG HB. rewrite alpha_premultiply_pixel.
  destruct (component_recompose A R G B) as (-> & -> & -> & ->); auto.
Qed.

Lemma alpha_premultiply_floor_witness :
  alpha_premultiply_ARGB8888 (recompose 128 255 64 0) =
    recompose 128 (128 * 255 / 255) (128 * 64 / 255) (128 * 0 / 255).
Proof. apply alpha_premultiply_floor; lia. Defined.

(** C2, as the specification states it, fails: the pixel with alpha 128 and
    red 129 gets the red channel 64, whereas 128 * 129 / 255 = 64.75 rounds
    to 65. *)
Lemma alpha_premultiply_not_rounded :
  alpha_premultiply_ARGB8888 (recompose 128 129 0 0) <> premultiplied_spec 128 129 0 0.
Proof. vm_compute. discriminate. Qed.

(** C7: every output colour channel is at most the input channel; an alpha
    of 0 gives the colour channels 0; an alpha of 255 gives the input pixel
    back. *)
Theorem alpha_premultiply_bounds (pixel : Z) :
  0 <= pixel < 2 ^ 32 ->
  let out := alpha_premultiply_ARGB8888 pixel in
  (component 2 out <= component 2 pixel /\
   component 1 out <= component 1 pixel /\
   component 0 out <= component 0 pixel)
  /\ (component 3 pixel = 0 ->
      component 2 out = 0 /\ component 1 out = 0 /\ component 0 out = 0)
  /\ (component 3 pixel = 255 -> out = pixel).
Proof.
  intros Hp out. subst out. rewrite alpha_premultiply_pixel.
  pose proof (component_range 3 pixel) as HA.
  pose proof (component_range 2 pixel) as HR.
  pose proof (component_range 1 pixel) as HG.
  pose proof (component_range 0 pixel) as HB.
  pose proof (floor_range _ _ HA HR) as HR'.
  pose proof (floor_range _ _ HA HG) as HG'.
  pose proof (floor_range _ _ HA HB) as HB'.
  destruct (component_recompose (component 3 pixel)
              (component 3 pixel * component 2 pixel / 255)
              (component 3 pixel * component 1 pixel / 255)
              (component 3 pixel * component 0 pixel / 255))
    as (_ & -> & -> & ->); try lia.
  split; [lia|]. split.
  - intros ->. rewrite !Z.mul_0_l. auto.
  - intros H255. rewrite H255.
    rewrite !(Z.mul_comm 255), !Z.div_mul by lia.
    rewrite <- H255. by apply recompose_components.
Qed.

Lemma alpha_premultiply_bounds_witness :
  let out := alpha_premultiply_ARGB8888 0xFF336699 in
  (component 2 out <= component 2 0xFF336699 /\
   component 1 out <= component 1 0xFF336699 /\
   component 0 out <= component 0 0xFF336699)
  /\ (component 3 0xFF336699 = 0 ->
      component 2 out = 0 /\ component 1 out = 0 /\ component 0 out = 0)
  /\ (component 3 0xFF336699 = 255 -> out = 0xFF336699).
Proof. apply (alpha_premultiply_bounds 0xFF336699). lia. Defined.

(** ** Rules of symbolic execution *)

Section WpRules.
Context {E S R : Type}.
Implicit Types (s : S).

Lemma wp_bind {A B} (m : M E S R A) (k : A -> M E S R B) s Q :
  wp m s (then_wp k Q) -> wp (m ≫= k) s Q.
Proof.
  unfold wp, then_wp, mbind, M_bind, bind_M. destruct (ctl (m s)); auto.
Qed.

Lemma wp_ret {A} (a : A) s (Q : result E S R A -> Prop) :
  Q (Result (Next a) s []) -> wp (mret a) s Q.
Proof. auto. Qed.

Lemma wp_creturn {A} (v : R) s (Q : result E S R A -> Prop) :
  Q (Result (Returned v) s []) -> wp (creturn v) s Q.
Proof. auto. Qed.

Lemma wp_cassert (b : bool) s (Q : result E S R unit -> Prop) :
  Q (Result (if b then Next tt else AssertFailed) s []) -> wp (cassert b) s Q.
Proof. auto. Qed.

Lemma wp_fault {A} s (Q : result E S R A -> Prop) :
  Q (Result MemFault s []) -> wp fault s Q.
Proof. auto. Qed.

Lemma wp_get s (Q : result E S R S -> Prop) :
  Q (Result (Next s) s []) -> wp get s Q.
Proof. auto. Qed.

Lemma wp_gets {A} (f : S -> A) s (Q : result E S R A -> Prop) :
  Q (Result (Next (f s)) s []) -> wp (gets f) s Q.
Proof. auto. Qed.

Lemma wp_modify (f : S -> S) s (Q : result E S R unit -> Prop) :
  Q (Result (Next tt) (f s) []) -> wp (modify f) s Q.
Proof. auto. Qed.

Lemma wp_emit (e : E) s (Q : result E S R unit -> Prop) :
  Q (Result (Next tt) s [e]) -> wp (emit e) s Q.
Proof. auto. Qed.

Lemma wp_skip s (Q : result E S R unit -> Prop) :
  Q (Result (Next tt) s []) -> wp skip s Q.
Proof. auto. Qed.

Lemma wp_call {R'} (body : M E S R' R') s (Q : result E S R R' -> Prop) :
  wp body s (fun r => Q (Result (match ctl r with
                                 | Next v | Returned v => Next v
                                 | AssertFailed => AssertFailed
                                 | MemFault => MemFault
                                 end) (final r) (trace r))) ->
  wp (call_function body) s Q.
Proof. auto. Qed.
End WpRules.


Ltac head_of t := lazymatch t with ?f _ => head_of f | _ => t end.

Ltac prune := try solve [exfalso; first [contradiction | congruence | lia]].

(** A test of the code: on a [bool_decide], both cases of the proposition;
    on anything else, what a hypothesis says of it, or both cases. *)
Ltac wp_case b :=
  lazymatch b with
  | context [bool_decide ?P] => destruct (bool_decide_reflect P)
  | _ =>
      first [ match goal with H : b = _ |- _ => rewrite H end
            | destruct b eqn:? ]
  end; prune.

Ltac wp_step :=
  lazymatch goal with
  | |- wp (mbind _ _) _ _ => apply wp_bind
  | |- wp (mret _) _ _ => apply wp_ret
  | |- wp (creturn _) _ _ => apply wp_creturn
  | |- wp (cassert _) _ _ => apply wp_cassert
  | |- wp fault _ _ => apply wp_fault
  | |- wp get _ _ => apply wp_get
  | |- wp (gets _) _ _ => apply wp_gets
  | |- wp (modify _) _ _ => apply wp_modify
  | |- wp (emit _) _ _ => apply wp_emit
  | |- wp skip _ _ => apply wp_skip
  | |- wp (call_function _) _ _ => apply wp_call
  | |- wp (if ?b then _ else _) _ _ => wp_case b
  | |- wp (match ?x with _ => _ end) _ _ => wp_case x
  | |- wp ?m _ _ => let h := head_of m in unfold h at 1
  | |- then_wp _ _ _ => unfold then_wp at 1
  | |- match (if ?b then _ else _) with _ => _ end => wp_case b
  end; cbn.

Ltac wp_run := repeat wp_step.

(** [P (m s)] as a question about the statement [m]. *)
Ltac wp_start t :=
  pattern t; lazymatch goal with |- ?Q (?m ?s) => change (wp m s Q) end.

Ltac trace_facts :=
  repeat match goal with
  | H : _ \/ _ |- _ => destruct H as [H|H]
  | H : False |- _ => destruct H
  | H : is_Some None |- _ => destruct H; discriminate
  | H : ?a = ?b :> GLES.call |- _ => first [discriminate H | injection H as ?; subst]
  | H : ?a = ?b :> Mouse.call |- _ => first [discriminate H | injection H as ?; subst]
  | H : Some _ = Some _ |- _ => injection H as ?; subst
  end.

Ltac find_event := cbn; repeat first [left; reflexivity | right].

(** ** The frame presenter *)

Module PresenterProperties.
Import GLES.

(** C10: [KMSDRM_GLES_SetSwapInterval] returns success if and only if EGL
    is initialized and the interval is 0 or 1, and it stores the interval
    if and only if it returns success: then the stored swap interval is the
    interval given and nothing else has changed.  In every other case,
    EGL not initialized or any other interval, it returns the error -1
    after one report and leaves the state, hence the stored swap interval,
    as it was. *)
Theorem SetSwapInterval_spec (interval : Z) (s : World) :
  let r := KMSDRM_GLES_SetSwapInterval interval s in
  (ctl r = Returned 0 <-> is_Some (egl_data s) /\ (interval = 0 \/ interval = 1))
  /\ (ctl r = Returned 0 /\ egl_swapinterval <$> egl_data (final r) = Some interval
       <-> is_Some (egl_data s) /\ (interval = 0 \/ interval = 1))
  /\ (ctl r = Returned 0 ->
      final r = set_egl_data (Some (EglData interval)) s /\ trace r = [])
  /\ (ctl r <> Returned 0 ->
      ctl r = Returned (-1) /\ final r = s /\
      trace r = [E_SetError (if egl_data s is Some _
                             then "Only swap intervals of 0 or 1 are supported"
                             else "EGL not initialized")])
  /\ (~ (interval = 0 \/ interval = 1) ->
      ctl r = Returned (-1) /\ final r = s).
Proof.
  intros r. subst r. destruct s as [egl wd dd].
  wp_start (KMSDRM_GLES_SetSwapInterval interval (MkWorld egl wd dd)).
  unfold KMSDRM_GLES_SetSwapInterval. wp_run.
  all: cbn; repeat split; intros; trace_facts; try done.
  all: try (intuition (eauto; congruence || lia)).
  all: try (destruct H as [[? ?] ?]; congruence).
Qed.

Lemma SetSwapInterval_spec_witness :
  let r := KMSDRM_GLES_SetSwapInterval 1 showing_bo_7 in
  (ctl r = Returned 0 /\ egl_swapinterval <$> egl_data (final r) = Some 1) /\
  final r = set_egl_data (Some (EglData 1)) showing_bo_7 /\ trace r = [].
Proof.
  split.
  - apply (proj2 (proj1 (proj2 (SetSwapInterval_spec 1 showing_bo_7)))).
    split; [eexists; reflexivity | right; reflexivity].
  - apply (proj1 (proj2 (proj2 (SetSwapInterval_spec 1 showing_bo_7)))).
    reflexivity.
Defined.

(** The part of a trace before, and the part after, the release that follows
    the commit. *)
Ltac split_at_commit tr :=
  lazymatch tr with
  | E_atomic_commit ?blk _ :: E_release_buffer _ :: ?post =>
      constr:((@nil call, post, blk))
  | ?e :: ?tr' =>
      let r := split_at_commit tr' in
      lazymatch r with (?pre, ?post, ?blk) => constr:((e :: pre, post, blk)) end
  end.

Ltac discipline_path :=
  repeat match goal with
  | H : ~ _ <> _ |- _ => apply dec_stable in H; try rewrite H in *
  end;
  unfold front_buffer_discipline; cbn;
  split; [|split]; intros; trace_facts;
  try first [done | lia | congruence];
  lazymatch goal with
  | |- _ /\ ex _ =>
      split; [congruence|];
      lazymatch goal with
      | |- exists pre post blk nb, ?tr = _ /\ _ =>
          let r := split_at_commit tr in
          lazymatch r with
          | (?pre, ?post, ?blk) => exists pre, post, blk
          end
      end;
      eexists; split; [reflexivity|]; split; [find_event|]; done
  | |- ex _ => eexists; split; [find_event|]; split; [reflexivity|]; cbn; congruence
  | |- _ /\ _ => split; cbn; first [done | lia | congruence]
  end.

Lemma SwapWindow_front_buffer (env : SwapAnswers) (s : World) :
  front_buffer_discipline (bo (windata s)) (KMSDRM_GLES_SwapWindow env s).
Proof.
  destruct s as [egl wd dd].
  wp_start (KMSDRM_GLES_SwapWindow env (MkWorld egl wd dd)).
  unfold KMSDRM_GLES_SwapWindow. wp_run.
  all: discipline_path.
Qed.

Lemma SwapWindowDB_front_buffer (env : SwapAnswers) (s : World) :
  front_buffer_discipline (bo (windata s)) (KMSDRM_GLES_SwapWindowDB env s).
Proof.
  destruct s as [egl wd dd].
  wp_start (KMSDRM_GLES_SwapWindowDB env (MkWorld egl wd dd)).
  unfold KMSDRM_GLES_SwapWindowDB. wp_run.
  all: discipline_path.
Qed.

(** C1: in both present paths, a call whose atomic commit fails releases no
    buffer and leaves [windata->bo] the recorded front buffer; the previous
    front buffer is released only after the new buffer has been locked and
    the atomic commit has returned success, and then the newly locked buffer
    is recorded as the current front buffer. *)
Theorem front_buffer_released_in_arrears (env : SwapAnswers) (s : World) :
  front_buffer_discipline (bo (windata s)) (KMSDRM_GLES_SwapWindow env s) /\
  front_buffer_discipline (bo (windata s)) (KMSDRM_GLES_SwapWindowDB env s).
Proof.
  split; [apply SwapWindow_front_buffer | apply SwapWindowDB_front_buffer].
Qed.

Lemma front_buffer_released_in_arrears_witness :
  let r := KMSDRM_GLES_SwapWindow commit_fails showing_bo_7 in
  releases (trace r) = [] /\ bo (windata (final r)) = Some 7%positive.
Proof.
  intros r.
  destruct (front_buffer_released_in_arrears commit_fails showing_bo_7) as [[Hfail _] _].
  apply (Hfail false (-22)); [vm_compute; find_event | lia].
Defined.

(** The two outcomes on a window showing the buffer object 7: a present
    whose calls all succeed releases 7 and records the locked buffer 8; a
    present whose commit fails releases nothing and keeps 7. *)
Example SwapWindow_presents_or_keeps :
  (let r := KMSDRM_GLES_SwapWindow all_succeed showing_bo_7 in
   ctl r = Returned 0 /\ count is_commit (trace r) = 1%nat /\
   releases (trace r) = [7%positive] /\ bo (windata (final r)) = Some 8%positive)
  /\
  (let r := KMSDRM_GLES_SwapWindow commit_fails showing_bo_7 in
   ctl r = Returned (-1) /\ count is_commit (trace r) = 1%nat /\
   releases (trace r) = [] /\ bo (windata (final r)) = Some 7%positive).
Proof. vm_compute. intuition. Qed.

(** C3: a call of [KMSDRM_GLES_SwapWindow] in which [eglSwapBuffers] fails
    issues no atomic commit and locks no buffer, leaves the buffer
    bookkeeping of the window as it was, and returns the error -1 of
    [SDL_SetError] (the call reaching the swap: EGL is there and the GPU
    fence was created). *)
Theorem SwapWindow_swap_failure (env : SwapAnswers) (s : World) :
  swap_buffers env = false ->
  let r := KMSDRM_GLES_SwapWindow env s in
  count is_commit (trace r) = 0%nat /\
  count is_lock (trace r) = 0%nat /\
  windata (final r) = windata s /\
  (is_Some (egl_data s) -> is_Some (gpu_fence_created env) ->
   ctl r = Returned (-1) /\ In (E_SetError "Failed to swap EGL buffers") (trace r)).
Proof.
  intros Hswap r. subst r. destruct s as [egl wd dd].
  wp_start (KMSDRM_GLES_SwapWindow env (MkWorld egl wd dd)).
  unfold KMSDRM_GLES_SwapWindow. rewrite Hswap. wp_run.
  all: unfold count; cbn; repeat split; auto.
  all: intros; trace_facts; try contradiction.
Qed.

Lemma SwapWindow_swap_failure_witness :
  let r := KMSDRM_GLES_SwapWindow swap_fails showing_bo_7 in
  count is_commit (trace r) = 0%nat /\
  count is_lock (trace r) = 0%nat /\
  windata (final r) = windata showing_bo_7 /\
  (is_Some (egl_data showing_bo_7) -> is_Some (gpu_fence_created swap_fails) ->
   ctl r = Returned (-1) /\ In (E_SetError "Failed to swap EGL buffers") (trace r)).
Proof. apply (SwapWindow_swap_failure swap_fails showing_bo_7). reflexivity. Defined.

(** C4, at the failing input: [eglSwapBuffers] fails and every later call
    succeeds.  [KMSDRM_GLES_SwapWindowDB] records the error and goes on: it
    locks a buffer, issues the blocking atomic commit, releases the front
    buffer, and returns 0. *)
Theorem SwapWindowDB_commits_after_failed_swap :
  let r := KMSDRM_GLES_SwapWindowDB swap_fails showing_bo_7 in
  ctl r = Returned 0 /\
  count is_commit (trace r) = 1%nat /\
  In (E_EGL_SetError "Failed to swap EGL buffers" "eglSwapBuffers") (trace r) /\
  In (E_atomic_commit true 0) (trace r) /\
  releases (trace r) = [7%positive] /\
  bo (windata (final r)) = Some 8%positive.
Proof. vm_compute. intuition. Qed.

End PresenterProperties.

(** ** The cursor manager *)

Module CursorProperties.
Import Mouse.

(** C5, at failing inputs.  The copy addresses the staging buffer by the
    cursor width [curdata->w], not by the stride of the buffer object, and
    does not compare the surface with the cursor.
    - A surface of 65 rows and a 64x64 cursor (stride 256, staging buffer of
      16384 bytes): the pixel of row 64 goes to byte offset 64 * 256 = 16384,
      past the end of the staging buffer.
    - A buffer object with rows padded to 512 bytes: the pixel (1,0) is
      written at byte offset 256 (word 64); the byte offset 1 * 512 (word
      128) is left zero. *)
Theorem CreateCursor_copy_ignores_stride_and_bounds :
  (let r := KMSDRM_CreateCursor answers_64x64 surface_1x65 0 0 empty_world in
   ctl r = MemFault /\
   written_data (trace r) = [] /\
   match heap (final r) !! 4%positive with
   | Some (ObjBuffer ws bufsize) => bufsize = 256 * 64 /\ 4 * (64 * 64 + 0) + 4 > bufsize
   | _ => False
   end)
  /\
  (let r := KMSDRM_CreateCursor answers_64x64_padded surface_1x2 0 0 empty_world in
   ctl r = Returned (Some 1%positive) /\
   match written_data (trace r) with
   | [data] =>
       data !! 0%nat = Some 0xFFFFFFFF /\
       data !! 64%nat = Some 0xFF0000FF /\
       data !! 128%nat = Some 0
   | _ => False
   end).
Proof. vm_compute. repeat split; congruence. Qed.

(** C6, at the failing input: the driver reports a usable cursor height of
    zero.  The test reads [usable_cursor_w] twice and never
    [usable_cursor_h]: no error is reported.  With the 2x2 surface the copy
    then runs past the staging buffer of 0 bytes, the cursor, its driver
    data, the buffer object and the staging buffer all being live; with an
    empty surface a cursor of height 0 is returned.  (Every failure that
    the function does detect releases all it created:
    [CreateCursor_failure_releases_all] below.) *)
Theorem CreateCursor_zero_height_undetected :
  (let r := KMSDRM_CreateCursor answers_zero_height surface_2x2 0 0 empty_world in
   ctl r = MemFault /\
   List.filter is_report (trace r) = [] /\
   size (heap (final r)) = 4%nat)
  /\
  (let r := KMSDRM_CreateCursor answers_zero_height surface_0x0 0 0 empty_world in
   ctl r = Returned (Some 1%positive) /\
   List.filter is_report (trace r) = [] /\
   heap (final r) !! 2%positive =
     Some (ObjCursorData (CursorData (Some 3%positive) 0 0 0 64 0))).
Proof. vm_compute. repeat split; congruence. Qed.

(** *** Failures of [KMSDRM_CreateCursor] release what was created *)

(** An allocation gives an address that was not in use. *)
Lemma wp_alloc {R} (o : object) (s : World) (Q : result call World R ptr -> Prop) :
  (forall p, heap s !! p = None -> Q (Result (Next p) (set_heap <[p := o]> s) [])) ->
  wp (alloc o) s Q.
Proof.
  intros H. unfold wp, alloc, mbind, M_bind, bind_M, get, modify, mret, M_ret, ret_M. cbn.
  apply H. apply not_elem_of_dom, is_fresh.
Qed.









(** The copy never reads past the end of the source pixels: the index
    [i * w + j] of a pixel of the surface is within its [w * h] pixels. *)
Lemma read_pixel_in_bounds {R} (surface : SDL_Surface) (i j : Z) (s : World) :
  length (pixels surface) = Z.to_nat (surf_w surface * surf_h surface) ->
  0 <= i < surf_h surface -> 0 <= j < surf_w surface ->
  exists v, pixels surface !! Z.to_nat (i * surf_w surface + j) = Some v /\
            read_pixel (R:=R) surface (i * surf_w surface + j) s = Result (Next v) s [].
Proof.
  intros Hlen Hi Hj.
  destruct (lookup_lt_is_Some_2 (pixels surface) (Z.to_nat (i * surf_w surface + j)))
    as [v Hv]; [rewrite Hlen; nia|].
  exists v. split; [done|]. unfold read_pixel.
  rewrite bool_decide_true by nia. by rewrite Hv.
Qed.

(** *** [KMSDRM_ShowCursor] *)

(** C8, as the specification states it, fails: the current cursor is hidden
    and no window has the focus; hiding returns the error -1. *)
Lemma ShowCursor_hide_hidden_fails :
  owning_crtc unfocused_world 1%positive = Some 0 /\
  let r := KMSDRM_ShowCursor 0 None unfocused_world in
  ctl r = Returned (-1) /\ trace r = [E_SetError "Couldn't find cursor to hide."].
Proof. vm_compute. repeat split; congruence. Qed.

(** Hiding a cursor that is already hidden. *)
Lemma ShowCursor_hide_hidden (answer : Z) (s : World) m cc dd cd :
  mouse s = Some m -> cur_cursor m = Some cc ->
  heap s !! cc = Some (ObjCursor (Cursor (Some dd))) ->
  heap s !! dd = Some (ObjCursorData cd) ->
  crtc_id cd = 0 ->
  let r := KMSDRM_ShowCursor answer None s in
  final r = s /\
  ctl r = Returned (match focus_dispdata m with
                    | Some disp => if bool_decide (disp_crtc_id disp ≠ 0) then answer else -1
                    | None => -1
                    end) /\
  trace r =
    match focus_dispdata m with
    | Some disp =>
        if bool_decide (disp_crtc_id disp ≠ 0) then
          E_drmModeSetCursor (drm_fd s) (disp_crtc_id disp) 0 0 0 answer ::
          (if bool_decide (answer ≠ 0)
           then [E_SetError "Could not hide display's cursor with drmModeSetCursor()."]
           else [])
        else [E_SetError "Couldn't find cursor to hide."]
    | None => [E_SetError "Couldn't find cursor to hide."]
    end.
Proof.
  intros Hm Hcc Hc Hd Hcrtc r. subst r. destruct s as [mo hp fd]. cbn in *. subst mo.
  wp_start (KMSDRM_ShowCursor answer None (MkWorld (Some m) hp fd)).
  unfold KMSDRM_ShowCursor, focus_dispdata, SDL_GetDisplayForWindow.
  wp_run.
  all: repeat match goal with H : _ = _ :> option SDL_DisplayData |- _ => rewrite H end.
  all: cbn; repeat case_bool_decide; prune; repeat split; first [done | f_equal; lia].
Qed.

(** A show that returned 0 found the mouse, the display of its focus, the
    cursor, its driver data and its buffer object, and recorded the
    controller of the display as the owner. *)
Lemma ShowCursor_show_inv (answer : Z) (c : ptr) (s : World) :
  ctl (KMSDRM_ShowCursor answer (Some c) s) = Returned 0 ->
  exists m disp dd cd cbo gb,
    mouse s = Some m /\ focus_dispdata m = Some disp /\
    heap s !! c = Some (ObjCursor (Cursor (Some dd))) /\
    heap s !! dd = Some (ObjCursorData cd) /\
    bo cd = Some cbo /\ heap s !! cbo = Some (ObjBO gb) /\
    final (KMSDRM_ShowCursor answer (Some c) s) =
      set_heap <[dd := ObjCursorData (set_crtc_id (disp_crtc_id disp) cd)]> s.
Proof.
  destruct s as [mo hp fd].
  wp_start (KMSDRM_ShowCursor answer (Some c) (MkWorld mo hp fd)).
  unfold KMSDRM_ShowCursor, focus_dispdata, SDL_GetDisplayForWindow.
  wp_run.
  all: intros [=]; prune.
  all: repeat match goal with c : SDL_Cursor |- _ => destruct c end; cbn in *; simplify_eq.
  all: eexists _, _, _, _, _, _; split; [reflexivity|]; split;
    [ match goal with
      | H : ?x = Some _ |- match ?x with _ => _ end = _ => rewrite H; eassumption
      end |];
    split; [reflexivity|]; split; [eassumption|]; split; [eassumption|];
    split; [eassumption|reflexivity].
Qed.

(** A show in a state where all of these are found. *)
Lemma ShowCursor_show_run (answer : Z) (c : ptr) (s : World) m disp dd cd cbo gb :
  mouse s = Some m -> focus_dispdata m = Some disp ->
  heap s !! c = Some (ObjCursor (Cursor (Some dd))) ->
  heap s !! dd = Some (ObjCursorData cd) ->
  bo cd = Some cbo -> heap s !! cbo = Some (ObjBO gb) ->
  let r := KMSDRM_ShowCursor answer (Some c) s in
  ctl r = Returned answer /\
  final r = if bool_decide (answer = 0)
            then set_heap <[dd := ObjCursorData (set_crtc_id (disp_crtc_id disp) cd)]> s
            else s.
Proof.
  intros Hm Hdisp Hc Hd Hbo Hcbo r. subst r. destruct s as [mo hp fd]. cbn in *. subst mo.
  wp_start (KMSDRM_ShowCursor answer (Some c) (MkWorld (Some m) hp fd)).
  unfold KMSDRM_ShowCursor. unfold focus_dispdata in Hdisp.
  wp_run.
  all: repeat match goal with
       | H : ?x = _, H' : context [match ?x with _ => _ end] |- _ => rewrite H in H'
       end; simplify_eq.
  all: repeat case_bool_decide; prune; split; first [done | f_equal; lia].
Qed.

Lemma owning_crtc_recorded (s : World) (c dd : ptr) (cd : KMSDRM_CursorData) (k : Z) :
  heap s !! c = Some (ObjCursor (Cursor (Some dd))) ->
  heap s !! dd = Some (ObjCursorData cd) ->
  owning_crtc (set_heap <[dd := ObjCursorData (set_crtc_id k cd)]> s) c = Some k.
Proof.
  intros Hc Hd. unfold owning_crtc. destruct s as [mo hp fd]. cbn in *.
  assert (dd ≠ c) by congruence.
  rewrite lookup_insert_ne, Hc, lookup_insert_eq by done. reflexivity.
Qed.

(** C8, as the code has it.  Hiding when the current cursor is already
    hidden changes no state.  When the focused window has a display
    controller with a non-zero id, the one call made is the request to the
    kernel to hide the cursor on that controller; what the kernel answers is
    returned, after the report of the error when it is not 0.  When there
    is no such controller no request is made, the error "Couldn't find
    cursor to hide." is reported and -1 is returned.  So the call returns
    success exactly when there is such a controller and the kernel accepts
    the request.  Showing a cursor a second time on the same controller,
    after a show that succeeded, returns and leaves the owning-controller
    field with the value it had after the first show. *)
Theorem ShowCursor_idempotence :
  (forall (answer : Z) (s : World) m cc dd cd,
     mouse s = Some m -> cur_cursor m = Some cc ->
     heap s !! cc = Some (ObjCursor (Cursor (Some dd))) ->
     heap s !! dd = Some (ObjCursorData cd) ->
     crtc_id cd = 0 ->
     let r := KMSDRM_ShowCursor answer None s in
     final r = s /\
     ctl r = Returned (match focus_dispdata m with
                       | Some disp =>
                           if bool_decide (disp_crtc_id disp ≠ 0) then answer else -1
                       | None => -1
                       end) /\
     trace r =
       match focus_dispdata m with
       | Some disp =>
           if bool_decide (disp_crtc_id disp ≠ 0) then
             E_drmModeSetCursor (drm_fd s) (disp_crtc_id disp) 0 0 0 answer ::
             (if bool_decide (answer ≠ 0)
              then [E_SetError "Could not hide display's cursor with drmModeSetCursor()."]
              else [])
           else [E_SetError "Couldn't find cursor to hide."]
       | None => [E_SetError "Couldn't find cursor to hide."]
       end /\
     (ctl r = Returned 0 <->
        exists disp, focus_dispdata m = Some disp /\ disp_crtc_id disp ≠ 0 /\ answer = 0))
  /\
  (forall (first second : Z) (s : World) (c : ptr),
     let r1 := KMSDRM_ShowCursor first (Some c) s in
     ctl r1 = Returned 0 ->
     let r2 := KMSDRM_ShowCursor second (Some c) (final r1) in
     ctl r2 = Returned second /\
     is_Some (owning_crtc (final r1) c) /\
     owning_crtc (final r2) c = owning_crtc (final r1) c).
Proof.
  split.
  { intros answer s m cc dd cd Hm Hcc Hc Hd Hcrtc r.
    destruct (ShowCursor_hide_hidden answer s m cc dd cd Hm Hcc Hc Hd Hcrtc)
      as (Hfin & Hctl & Htr).
    fold r in Hfin, Hctl, Htr. split; [done|]. split; [done|]. split; [done|].
    rewrite Hctl. destruct (focus_dispdata m) as [disp|].
    - case_bool_decide.
      + split; [intros [= ->]; eauto | intros (? & [= <-] & _ & ->); done].
      + split; [done | intros (? & [= <-] & ? & _); done].
    - split; [done | intros (? & [=] & _)]. }
  intros a1 a2 s c r1 H1 r2. subst r1 r2.
  destruct (ShowCursor_show_inv _ _ _ H1)
    as (m & disp & dd & cd & cbo & gb & Hm & Hdisp & Hc & Hd & Hbo & Hcbo & ->).
  set (k := disp_crtc_id disp).
  set (s1 := set_heap <[dd := ObjCursorData (set_crtc_id k cd)]> s).
  assert (dd ≠ c) by congruence. assert (dd ≠ cbo) by congruence.
  assert (Hc1 : heap s1 !! c = Some (ObjCursor (Cursor (Some dd))))
    by (destruct s; cbn in *; by rewrite lookup_insert_ne).
  assert (Hd1 : heap s1 !! dd = Some (ObjCursorData (set_crtc_id k cd)))
    by (destruct s; cbn in *; by rewrite lookup_insert_eq).
  assert (Hcbo1 : heap s1 !! cbo = Some (ObjBO gb))
    by (destruct s; cbn in *; by rewrite lookup_insert_ne).
  assert (Hm1 : mouse s1 = Some m) by (destruct s; done).
  assert (Ho1 : owning_crtc s1 c = Some k) by (by apply owning_crtc_recorded).
  destruct (ShowCursor_show_run a2 c s1 m disp dd (set_crtc_id k cd) cbo gb)
    as [Hctl Hfin]; auto.
  split; [done|]. split; [by rewrite Ho1|].
  rewrite Hfin, Ho1. case_bool_decide; [|done].
  by apply owning_crtc_recorded.
Qed.

Lemma ShowCursor_idempotence_witness :
  (let r := KMSDRM_ShowCursor 0 None focused_world in
   final r = focused_world /\ ctl r = Returned 0 /\
   trace r = [E_drmModeSetCursor 3 42 0 0 0 0])
  /\
  (let r1 := KMSDRM_ShowCursor 0 (Some 1%positive) focused_world in
   let r2 := KMSDRM_ShowCursor 0 (Some 1%positive) (final r1) in
   ctl r2 = Returned 0 /\
   is_Some (owning_crtc (final r1) 1%positive) /\
   owning_crtc (final r2) 1%positive = owning_crtc (final r1) 1%positive).
Proof.
  split.
  - destruct (proj1 ShowCursor_idempotence 0 focused_world
                (MouseData 0 (Some window_on_crtc_42) (Some 1%positive) 10 20)
                1%positive 2%positive (CursorData (Some 3%positive) 0 0 0 64 64))
      as (Hfin & Hctl & Htr & _); try reflexivity.
    repeat split; assumption.
  - apply (proj2 ShowCursor_idempotence 0 0 focused_world 1%positive).
    vm_compute. reflexivity.
Defined.

(** *** [KMSDRM_WarpMouseGlobal] and [KMSDRM_WarpMouse] *)

(** C9, as the specification states it, fails: the mouse has no current
    cursor; the warp to (5,7) returns the error -1 and the tracked position
    stays (10,20). *)
Lemma WarpMouseGlobal_without_cursor :
  let r := KMSDRM_WarpMouseGlobal 0 5 7 cursorless_world in
  ctl r = Returned (-1) /\
  trace r = [E_SetError "No mouse or current cursor."] /\
  (fun m => (x m, y m)) <$> mouse (final r) = Some (10, 20).
Proof. vm_compute. repeat split; congruence. Qed.

Lemma WarpMouseGlobal_with_cursor (answer wx wy : Z) (s : World) m cc dd cd :
  mouse s = Some m -> cur_cursor m = Some cc ->
  heap s !! cc = Some (ObjCursor (Cursor (Some dd))) ->
  heap s !! dd = Some (ObjCursorData cd) ->
  let r := KMSDRM_WarpMouseGlobal answer wx wy s in
  mouse (final r) = Some (MouseData (mouseID m) (focus m) (cur_cursor m) wx wy) /\
  heap (final r) = heap s /\
  In (E_SendMouseMotion (focus m) (mouseID m) 0 wx wy) (trace r) /\
  (forall cbo gb,
     bo cd = Some cbo -> heap s !! cbo = Some (ObjBO gb) -> crtc_id cd ≠ 0 ->
     In (E_drmModeMoveCursor (bo_device_fd gb) (crtc_id cd) wx wy answer) (trace r) /\
     ctl r = Returned answer) /\
  (bo cd = None \/ crtc_id cd = 0 ->
     (forall fd crtc cx cy ret, ~ In (E_drmModeMoveCursor fd crtc cx cy ret) (trace r)) /\
     ctl r = Returned (-1)).
Proof.
  intros Hm Hcc Hc Hd r. subst r. destruct s as [mo hp fd]. cbn in *. subst mo.
  wp_start (KMSDRM_WarpMouseGlobal answer wx wy (MkWorld (Some m) hp fd)).
  unfold KMSDRM_WarpMouseGlobal, mouse_with_cursor.
  wp_run.
  all: rewrite ?Hcc; repeat split; auto; intros; trace_facts; prune.
  all: try match goal with H : ?h !! ?p = Some (ObjBO _), H' : ?h !! ?p = _ |- _ =>
         rewrite H in H'; simplify_eq end.
  all: try (intros Hin; cbn in Hin; trace_facts); prune; auto; try find_event.
  all: try (f_equal; lia).
Qed.

(** C9, as the code has it.  When the mouse has a current cursor with
    driver data, [KMSDRM_WarpMouseGlobal(x,y)] updates the tracked position
    to (x,y), and issues a position-only move when the cursor has a buffer
    object and is shown on a controller, and none otherwise; when there is
    no mouse, no current cursor or no driver data, it changes nothing and
    returns an error.  [KMSDRM_WarpMouse(window,x,y)] does what
    [KMSDRM_WarpMouseGlobal(x,y)] does, whatever the window. *)
Theorem WarpMouseGlobal_spec (answer wx wy : Z) (s : World) :
  let r := KMSDRM_WarpMouseGlobal answer wx wy s in
  (forall m cc dd cd,
     mouse s = Some m -> cur_cursor m = Some cc ->
     heap s !! cc = Some (ObjCursor (Cursor (Some dd))) ->
     heap s !! dd = Some (ObjCursorData cd) ->
     mouse (final r) = Some (MouseData (mouseID m) (focus m) (cur_cursor m) wx wy) /\
     heap (final r) = heap s /\
     In (E_SendMouseMotion (focus m) (mouseID m) 0 wx wy) (trace r) /\
     (forall cbo gb,
        bo cd = Some cbo -> heap s !! cbo = Some (ObjBO gb) -> crtc_id cd ≠ 0 ->
        In (E_drmModeMoveCursor (bo_device_fd gb) (crtc_id cd) wx wy answer) (trace r) /\
        ctl r = Returned answer) /\
     (bo cd = None \/ crtc_id cd = 0 ->
        (forall fd crtc cx cy ret,
           ~ In (E_drmModeMoveCursor fd crtc cx cy ret) (trace r)) /\
        ctl r = Returned (-1)))
  /\ (no_current_cursor s ->
      final r = s /\ ctl r = Returned (-1) /\
      trace r = [E_SetError "No mouse or current cursor."])
  /\ (forall window,
        let r' := KMSDRM_WarpMouse answer window wx wy s in
        final r' = final r /\ trace r' = trace r /\
        ctl r' = match ctl r with
                 | Next _ | Returned _ => Next tt
                 | AssertFailed => AssertFailed
                 | MemFault => MemFault
                 end).
Proof.
  intros r. split; [|split].
  - intros m cc dd cd. apply WarpMouseGlobal_with_cursor.
  - subst r. unfold no_current_cursor. destruct s as [mo hp fd]. cbn.
    wp_start (KMSDRM_WarpMouseGlobal answer wx wy (MkWorld mo hp fd)).
    unfold KMSDRM_WarpMouseGlobal, mouse_with_cursor.
    wp_run.
    all: intros; simplify_eq/=; prune; auto.
  - intros window r'. subst r r'.
    unfold KMSDRM_WarpMouse, call_function, mbind, M_bind, bind_M, skip, ret_M. cbn.
    destruct (KMSDRM_WarpMouseGlobal answer wx wy s) as [[v|v| |] fs tr]; cbn;
      rewrite ?app_nil_r; done.
Qed.

Lemma WarpMouseGlobal_spec_witness :
  let r := KMSDRM_WarpMouseGlobal 0 5 7 shown_world in
  mouse (final r) = Some (MouseData 0 (Some window_on_crtc_42) (Some 1%positive) 5 7) /\
  In (E_drmModeMoveCursor 3 42 5 7 0) (trace r) /\
  ctl r = Returned 0.
Proof.
  intros r.
  destruct (proj1 (WarpMouseGlobal_spec 0 5 7 shown_world)
              (MouseData 0 (Some window_on_crtc_42) (Some 1%positive) 10 20)
              1%positive 2%positive (CursorData (Some 3%positive) 42 0 0 64 64)
              eq_refl eq_refl eq_refl eq_refl)
    as (Hpos & _ & _ & Hmove & _).
  destruct (Hmove 3%positive (GbmBo 256 77 3) eq_refl eq_refl) as [Hin Hctl].
  - cbn. lia.
  - repeat split; assumption.
Defined.

End CursorProperties.

(** * Further properties of the code *)

(** ** The pixel conversion, continued *)

Lemma recompose_range (A R G B : Z) :
  0 <= A < 256 -> 0 <= R < 256 -> 0 <= G < 256 -> 0 <= B < 256 ->
  0 <= recompose A R G B < 2 ^ 32.
Proof.
  intros HA HR HG HB.
  assert (Hmod : Z.land (recompose A R G B) (Z.ones 32) = recompose A R G B).
  { apply Z.bits_inj'; intros n Hn. rewrite Z.land_spec.
    destruct (Z.ltb_spec n 32).
    - rewrite Z.ones_spec_low by lia. apply andb_true_r.
    - rewrite Z.ones_spec_high by lia. rewrite andb_false_r.
      rewrite testbit_recompose by lia. case_ltb; try lia; reflexivity. }
  rewrite Z.land_ones in Hmod by lia. rewrite <- Hmod.
  apply Z.mod_pos_bound. lia.
Qed.

(** X1: the pixel that [alpha_premultiply_ARGB8888] produces is a 32-bit
    value with the alpha of the input, and none of its colour channels
    exceeds its alpha: it is a premultiplied pixel, whatever the input. *)
Theorem alpha_premultiply_is_premultiplied (pixel : Z) :
  let out := alpha_premultiply_ARGB8888 pixel in
  0 <= out < 2 ^ 32 /\
  component 3 out = component 3 pixel /\
  component 2 out <= component 3 out /\
  component 1 out <= component 3 out /\
  component 0 out <= component 3 out.
Proof.
  intros out. subst out. rewrite alpha_premultiply_pixel.
  pose proof (component_range 3 pixel) as HA.
  pose proof (component_range 2 pixel) as HR.
  pose proof (component_range 1 pixel) as HG.
  pose proof (component_range 0 pixel) as HB.
  pose proof (floor_range _ _ HA HR) as HR'.
  pose proof (floor_range _ _ HA HG) as HG'.
  pose proof (floor_range _ _ HA HB) as HB'.
  split; [apply recompose_range; lia|].
  destruct (component_recompose (component 3 pixel)
              (component 3 pixel * component 2 pixel / 255)
              (component 3 pixel * component 1 pixel / 255)
              (component 3 pixel * component 0 pixel / 255))
    as (-> & -> & -> & ->); try lia.
  repeat split; try done; apply Z.div_le_upper_bound; nia.
Qed.

(** ** The cursor manager, continued *)

(** A loop whose body records no call and takes the invariant from the
    elements already visited to one more, or faults. *)
Lemma for_each_inv_prefix {E S R A} (I : list A -> S -> Prop)
    (body : A -> M E S R unit) :
  (forall pre x s, I pre s ->
     trace (body x s) = [] /\
     (ctl (body x s) = MemFault \/
      (ctl (body x s) = Next tt /\ I (pre ++ [x]) (final (body x s))))) ->
  forall l pre s, I pre s ->
    trace (for_each l body s) = [] /\
    (ctl (for_each l body s) = MemFault \/
     (ctl (for_each l body s) = Next tt /\ I (pre ++ l) (final (for_each l body s)))).
Proof.
  intros Hbody. induction l as [|x l IH]; intros pre s Hs; cbn.
  - rewrite app_nil_r. auto.
  - unfold bind_M. destruct (Hbody pre x s Hs) as [Htr [Hc|[Hc Hf]]]; rewrite Hc, Htr; cbn.
    + auto.
    + destruct (IH _ _ Hf) as [Htr' Hc']. rewrite Htr'.
      rewrite <- app_assoc in Hc'. auto.
Qed.

Module CursorCoverage.
Import Mouse.
Import CursorProperties.

(** *** The copy into the staging buffer *)

Lemma elem_of_pixel_positions (surface : SDL_Surface) (i j : Z) :
  (i, j) ∈ pixel_positions surface <->
  0 <= i < surf_h surface /\ 0 <= j < surf_w surface.
Proof.
  unfold pixel_positions. rewrite list_elem_of_bind. split.
  - intros (i' & Hj & Hi). apply list_elem_of_fmap in Hj as (j' & [= -> ->] & Hj).
    apply elem_of_seqZ in Hi, Hj. lia.
  - intros [Hi Hj]. exists i. split.
    + apply list_elem_of_fmap. exists j. split; [done|]. apply elem_of_seqZ. lia.
    + apply elem_of_seqZ. lia.
Qed.

Lemma length_stage (surface : SDL_Surface) (cw : Z) (l : list (Z * Z)) (ws : list Z) :
  length (foldl (stage_pixel surface cw) ws l) = length ws.
Proof.
  revert ws. induction l as [|ij l IH]; intros ws; cbn; [done|].
  rewrite IH. unfold stage_pixel. apply length_insert.
Qed.

(** A word that no position of [l] addresses keeps its value. *)
Lemma stage_lookup_other (surface : SDL_Surface) (cw : Z) (l : list (Z * Z))
    (ws : list Z) (k : nat) :
  (forall ij, ij ∈ l -> Z.to_nat (ij.1 * cw + ij.2) ≠ k) ->
  foldl (stage_pixel surface cw) ws l !! k = ws !! k.
Proof.
  revert ws. induction l as [|ij l IH]; intros ws Hk; cbn; [done|].
  rewrite IH by (intros; apply Hk; by right).
  unfold stage_pixel. apply list_lookup_insert_ne. apply Hk. by left.
Qed.

(** A word that one position of [l] addresses, and no other position with
    another pixel, holds the premultiplied pixel of that position. *)
Lemma stage_lookup_pixel (surface : SDL_Surface) (cw : Z) (l : list (Z * Z))
    (ws : list Z) (ij : Z * Z) :
  ij ∈ l ->
  (Z.to_nat (ij.1 * cw + ij.2) < length ws)%nat ->
  (forall ij', ij' ∈ l ->
     Z.to_nat (ij'.1 * cw + ij'.2) = Z.to_nat (ij.1 * cw + ij.2) -> ij' = ij) ->
  foldl (stage_pixel surface cw) ws l !! Z.to_nat (ij.1 * cw + ij.2) =
    Some (alpha_premultiply_ARGB8888
            (default 0 (pixels surface !! Z.to_nat (ij.1 * surf_w surface + ij.2)))).
Proof.
  intros Hin Hlen Hinj. induction l as [|ij' l IH] using rev_ind; [inversion Hin|].
  rewrite foldl_snoc. unfold stage_pixel at 1.
  destruct (decide (Z.to_nat (ij'.1 * cw + ij'.2) = Z.to_nat (ij.1 * cw + ij.2))) as [He|Hne].
  - assert (ij' = ij) as -> by (apply Hinj; [apply elem_of_app; right; by left | done]).
    apply list_lookup_insert_eq. by rewrite length_stage.
  - rewrite list_lookup_insert_ne by done.
    apply elem_of_app in Hin as [Hin|Hin].
    + apply IH; [done|]. intros ij'' H'' He. apply Hinj; [|done]. apply elem_of_app. by left.
    + apply list_elem_of_singleton in Hin. congruence.
Qed.

Ltac heap_simpl' :=
  repeat first
    [ rewrite lookup_insert_eq | rewrite lookup_insert_ne by done
    | rewrite lookup_delete_eq | rewrite lookup_delete_ne by done ].

(** The copy, when it does not fault, stages every pixel in turn; the words
    of the staging buffer are the only thing it changes, and every position
    was one where the copy is defined. *)
Lemma copy_loop_content {R} (surface : SDL_Surface) (buffer : ptr) (cw : Z)
    (ws : list Z) (size : Z) (s : World) :
  heap s !! buffer = Some (ObjBuffer ws size) ->
  let r := for_range (R:=R) 0 (surf_h surface) (fun i =>
             for_range 0 (surf_w surface) (fun j =>
               pixel ← read_pixel surface (i * surf_w surface + j);
               let pixel := alpha_premultiply_ARGB8888 pixel in
               SDL_memcpy_pixel buffer (i * cw + j) pixel)) s in
  trace r = [] /\
  (ctl r = MemFault \/
   (ctl r = Next tt /\
    final r = set_heap
                <[buffer := ObjBuffer (foldl (stage_pixel surface cw) ws
                                             (pixel_positions surface)) size]> s /\
    Forall (copy_ok surface cw size) (pixel_positions surface))).
Proof.
  intros Hb r. subst r. unfold for_range, pixel_positions.
  set (row := fun i : Z => (fun j => (i, j)) <$> seqZ 0 (surf_w surface - 0)).
  set (I := fun (l : list (Z * Z)) (s' : World) =>
              s' = set_heap <[buffer := ObjBuffer (foldl (stage_pixel surface cw) ws l) size]> s
              /\ Forall (copy_ok surface cw size) l).
  assert (HI0 : I [] s).
  { split; [|constructor]. destruct s as [mo hp fd]. unfold set_heap. cbn in *.
    by rewrite insert_id. }
  destruct (for_each_inv_prefix (R:=R) (fun pre s' => I (pre ≫= row) s')
              (fun i => for_each (seqZ 0 (surf_w surface - 0)) (fun j =>
                 pixel ← read_pixel surface (i * surf_w surface + j);
                 let pixel := alpha_premultiply_ARGB8888 pixel in
                 SDL_memcpy_pixel buffer (i * cw + j) pixel)))
    with (l := seqZ 0 (surf_h surface - 0)) (pre := @nil Z) (s := s)
    as [Htr Hc]; [|exact HI0|].
  2:{ split; [done|]. destruct Hc as [?|(? & ? & ?)]; auto. }
  intros pre i s1 Hs1.
  destruct (for_each_inv_prefix (R:=R)
              (fun prej s' => I ((pre ≫= row) ++ ((fun j => (i, j)) <$> prej)) s')
              (fun j =>
                 pixel ← read_pixel surface (i * surf_w surface + j);
                 let pixel := alpha_premultiply_ARGB8888 pixel in
                 SDL_memcpy_pixel buffer (i * cw + j) pixel))
    with (l := seqZ 0 (surf_w surface - 0)) (pre := @nil Z) (s := s1)
    as [Htr Hc].
  - clear Hs1 s1. intros prej j s2 [-> Hok]. destruct s as [mo hp fd].
    unfold set_heap. cbn [mouse heap drm_fd].
    lazymatch goal with |- trace (?m ?s) = [] /\ _ => wp_start (m s) end.
    repeat first [progress heap_simpl' | wp_step].
    all: repeat split; auto.
    right. split; [done|]. split.
    + unfold set_heap. cbn. rewrite insert_insert_eq. do 3 f_equal.
      rewrite fmap_app. change ((fun j0 => (i, j0)) <$> [j]) with [(i, j)].
      rewrite app_assoc, foldl_snoc. unfold stage_pixel at 2. cbn.
      by match goal with H : pixels _ !! _ = Some _ |- _ => rewrite H end.
    + rewrite fmap_app. change ((fun j0 => (i, j0)) <$> [j]) with [(i, j)].
      rewrite app_assoc. apply Forall_app. split; [done|].
      repeat constructor; cbn; try lia. by eexists.
  - cbn. by rewrite app_nil_r.
  - split; [done|]. destruct Hc as [?|[? Hc]]; [by left|right]. split; [done|].
    cbn in Hc. by rewrite bind_app, bind_singleton.
Qed.

Lemma wp_copy_loop_content {R} (surface : SDL_Surface) (buffer : ptr) (cw : Z)
    (ws : list Z) (size : Z) (s : World) (Q : result call World R unit -> Prop) :
  heap s !! buffer = Some (ObjBuffer ws size) ->
  (forall s', Q (Result MemFault s' [])) ->
  (Forall (copy_ok surface cw size) (pixel_positions surface) ->
   Q (Result (Next tt)
        (set_heap <[buffer := ObjBuffer (foldl (stage_pixel surface cw) ws
                                               (pixel_positions surface)) size]> s) [])) ->
  wp (for_range 0 (surf_h surface) (fun i =>
        for_range 0 (surf_w surface) (fun j =>
          pixel ← read_pixel surface (i * surf_w surface + j);
          let pixel := alpha_premultiply_ARGB8888 pixel in
          SDL_memcpy_pixel buffer (i * cw + j) pixel))) s Q.
Proof.
  intros Hb Hfault Hnext. unfold wp.
  destruct (copy_loop_content (R:=R) surface buffer cw ws size s Hb) as [Htr Hc].
  destruct (for_range _ _ _ s) as [c f t]. cbn in *. subst t.
  destruct Hc as [->|(-> & -> & Hok)]; auto.
Qed.

Ltac cursor_step' :=
  lazymatch goal with
  | |- wp (for_range _ _ _) _ _ => fail
  | |- wp (alloc _) _ _ =>
      apply wp_alloc; let p := fresh "p" in let H := fresh "Hp" in
      intros p H; cbn in H; repeat (apply lookup_insert_None in H as [H ?]); cbn
  | _ => first [progress heap_simpl' | wp_step]
  end.

(** What a call of [KMSDRM_CreateCursor] that returns a cursor has done. *)
Lemma CreateCursor_success (env : CreateAnswers) (surface : SDL_Surface)
    (hotx hoty : Z) (s : World) (c : ptr) :
  let r := KMSDRM_CreateCursor env surface hotx hoty s in
  ctl r = Returned (Some c) ->
  let cw := s32 (cap_cursor_width env).2 in
  let ch := s32 (cap_cursor_height env).2 in
  exists dd cbo g,
    bo_created env = Some g /\
    heap s !! c = None /\ heap s !! dd = None /\ heap s !! cbo = None /\
    c ≠ dd /\ c ≠ cbo /\ dd ≠ cbo /\
    final r =
      set_heap (fun hp =>
        <[c := ObjCursor (Cursor (Some dd))]>
          (<[dd := ObjCursorData (CursorData (Some cbo) 0 hotx hoty cw ch)]>
             (<[cbo := ObjBO g]> hp))) s /\
    let size := u32 (bo_stride g * ch) in
    written_data (trace r) =
      [foldl (stage_pixel surface cw) (replicate (Z.to_nat (size / 4)) 0)
             (pixel_positions surface)] /\
    Forall (copy_ok surface cw size) (pixel_positions surface) /\
    List.filter is_report (trace r) = [].
Proof.
  intros r. subst r. destruct s as [mo hp fd].
  wp_start (KMSDRM_CreateCursor env surface hotx hoty (MkWorld mo hp fd)).
  unfold KMSDRM_CreateCursor.
  repeat cursor_step'.
  all: try (eapply wp_copy_loop_content;
            [ cbn; heap_simpl'; reflexivity
            | intros; repeat cursor_step'
            | intros Hok; unfold set_heap at 1; cbn [mouse heap drm_fd];
              repeat cursor_step' ]).
  all: intros Hret; try discriminate Hret.
  all: injection Hret as <-.
  all: lazymatch goal with
       | |- context [ObjCursor (Cursor (Some ?dd))] =>
           lazymatch goal with
           | |- context [set_bo (Some ?cbo)] => exists dd, cbo
           end
       end.
  all: eexists; split; [reflexivity|].
  all: do 6 (split; [done|]).
  all: split;
    [ unfold set_heap, set_bo, set_geometry; cbn; f_equal; apply map_eq; intros ?;
      repeat first [rewrite lookup_delete | rewrite lookup_insert];
      repeat case_decide; subst; congruence |].
  all: cbn; rewrite drop_ge, app_nil_r by (by rewrite length_fmap, length_seq).
  all: rewrite take_ge by (by rewrite length_stage, length_replicate).
  all: done.
Qed.

Lemma copy_ok_index (surface : SDL_Surface) (cw size : Z) (ij : Z * Z) :
  copy_ok surface cw size ij ->
  (Z.to_nat (ij.1 * cw + ij.2) < Z.to_nat (size / 4))%nat.
Proof.
  intros (_ & _ & H0 & Hsz).
  assert (ij.1 * cw + ij.2 + 1 <= size / 4) by (apply Z.div_le_lower_bound; lia).
  lia.
Qed.

(** X2: when [KMSDRM_CreateCursor] returns a cursor for a surface no wider
    than the hardware cursor, the data written to the buffer object holds,
    at the word [row * cursor_width + column], the premultiplied pixel
    (row, column) of the surface, and 0 in every word that is not the word
    of a pixel. *)
Theorem CreateCursor_stages_premultiplied (env : CreateAnswers) (surface : SDL_Surface)
    (hotx hoty : Z) (s : World) (c : ptr) :
  let r := KMSDRM_CreateCursor env surface hotx hoty s in
  let cw := s32 (cap_cursor_width env).2 in
  ctl r = Returned (Some c) ->
  surf_w surface <= cw ->
  exists data,
    written_data (trace r) = [data] /\
    (forall i j, 0 <= i < surf_h surface -> 0 <= j < surf_w surface ->
       exists px,
         pixels surface !! Z.to_nat (i * surf_w surface + j) = Some px /\
         data !! Z.to_nat (i * cw + j) = Some (alpha_premultiply_ARGB8888 px)) /\
    (forall k : nat, (k < length data)%nat ->
       (forall i j, 0 <= i < surf_h surface -> 0 <= j < surf_w surface ->
          Z.to_nat (i * cw + j) ≠ k) ->
       data !! k = Some 0).
Proof.
  intros r cw Hret Hfit. subst r.
  destruct (CreateCursor_success _ _ _ _ _ _ Hret)
    as (dd & cbo & g & _ & _ & _ & _ & _ & _ & _ & _ & Hdata & Hok & _).
  fold cw in Hdata, Hok. cbn zeta in Hdata, Hok.
  set (size := u32 (bo_stride g * s32 (cap_cursor_height env).2)) in *.
  eexists. split; [exact Hdata|]. rewrite Forall_forall in Hok. split.
  - intros i j Hi Hj.
    assert (Hin : (i, j) ∈ pixel_positions surface) by (by apply elem_of_pixel_positions).
    pose proof (Hok _ Hin) as Hc. pose proof (copy_ok_index _ _ _ _ Hc) as Hidx.
    destruct Hc as (H0 & [px Hpx] & H1 & _). cbn in *.
    exists px. split; [done|].
    rewrite (stage_lookup_pixel surface cw _ _ (i, j)); cbn.
    + by rewrite Hpx.
    + done.
    + by rewrite length_replicate.
    + intros [i' j'] Hin' He. cbn in He.
      apply elem_of_pixel_positions in Hin' as [Hi' Hj'].
      destruct (Hok (i', j')) as (_ & _ & H1' & _); [by apply elem_of_pixel_positions|].
      cbn in H1'. assert (i' * cw + j' = i * cw + j) by lia.
      assert (i' = i) by nia. subst i'. f_equal. lia.
  - intros k Hk Hother. rewrite length_stage, length_replicate in Hk.
    rewrite stage_lookup_other.
    + by apply lookup_replicate_2.
    + intros [i j] Hin. cbn. apply elem_of_pixel_positions in Hin as [Hi Hj]. by apply Hother.
Qed.

Lemma CreateCursor_stages_premultiplied_witness :
  exists data,
    written_data (trace (KMSDRM_CreateCursor answers_64x64 surface_2x2 0 0 empty_world))
      = [data] /\
    (forall i j, 0 <= i < surf_h surface_2x2 -> 0 <= j < surf_w surface_2x2 ->
       exists px,
         pixels surface_2x2 !! Z.to_nat (i * surf_w surface_2x2 + j) = Some px /\
         data !! Z.to_nat (i * s32 (cap_cursor_width answers_64x64).2 + j)
           = Some (alpha_premultiply_ARGB8888 px)) /\
    (forall k : nat, (k < length data)%nat ->
       (forall i j, 0 <= i < surf_h surface_2x2 -> 0 <= j < surf_w surface_2x2 ->
          Z.to_nat (i * s32 (cap_cursor_width answers_64x64).2 + j) ≠ k) ->
       data !! k = Some 0).
Proof.
  apply (CreateCursor_stages_premultiplied answers_64x64 surface_2x2 0 0 empty_world
           1%positive).
  - vm_compute. reflexivity.
  - vm_compute. discriminate.
Defined.

(** X3: a cursor returned by [KMSDRM_CreateCursor] is a new object that is
    not shown (owning controller 0); its driver data carry the hot spot
    given and the dimensions the driver recommended, and own a new buffer
    object; the staging buffer is gone; every object that was in the heap
    is as it was, and no error was reported. *)
Theorem CreateCursor_returns_hidden_cursor (env : CreateAnswers) (surface : SDL_Surface)
    (hotx hoty : Z) (s : World) (c : ptr) :
  let r := KMSDRM_CreateCursor env surface hotx hoty s in
  ctl r = Returned (Some c) ->
  heap s !! c = None /\
  owning_crtc (final r) c = Some 0 /\
  (exists dd cbo g,
     heap (final r) !! c = Some (ObjCursor (Cursor (Some dd))) /\
     heap (final r) !! dd =
       Some (ObjCursorData (CursorData (Some cbo) 0 hotx hoty
                              (s32 (cap_cursor_width env).2)
                              (s32 (cap_cursor_height env).2))) /\
     heap (final r) !! cbo = Some (ObjBO g) /\ bo_created env = Some g /\
     dom (heap (final r)) = {[c; dd; cbo]} ∪ dom (heap s) /\
     heap s !! dd = None /\ heap s !! cbo = None) /\
  (forall p o, heap s !! p = Some o -> heap (final r) !! p = Some o) /\
  mouse (final r) = mouse s /\
  List.filter is_report (trace r) = [].
Proof.
  intros r Hret. subst r.
  destruct (CreateCursor_success _ _ _ _ _ _ Hret)
    as (dd & cbo & g & Hg & Hc & Hdd & Hcbo & Hn1 & Hn2 & Hn3 & -> & _ & _ & Hrep).
  destruct s as [mo hp fd]. unfold owning_crtc, set_heap. cbn in *.
  split; [done|]. split.
  { rewrite lookup_insert_eq, lookup_insert_ne, lookup_insert_eq by done. done. }
  split.
  { exists dd, cbo, g.
    rewrite lookup_insert_eq.
    rewrite (lookup_insert_ne _ c dd), lookup_insert_eq by done.
    rewrite (lookup_insert_ne _ c cbo), (lookup_insert_ne _ dd cbo), lookup_insert_eq by done.
    repeat split; try done. by rewrite !dom_insert_L, !(assoc_L (∪)). }
  split; [|done].
  intros p o Hp.
  rewrite !lookup_insert_ne by congruence. done.
Qed.

Lemma CreateCursor_returns_hidden_cursor_witness :
  owning_crtc (final (KMSDRM_CreateCursor answers_64x64 surface_2x2 0 0 empty_world))
              1%positive = Some 0.
Proof.
  apply (CreateCursor_returns_hidden_cursor answers_64x64 surface_2x2 0 0 empty_world
           1%positive).
  vm_compute. reflexivity.
Defined.



(** *** [KMSDRM_FreeCursor] *)

(** Freeing a cursor that has driver data and a buffer object. *)
Lemma FreeCursor_run (answer : Z) (s : World) c dd cd cbo gb :
  heap s !! c = Some (ObjCursor (Cursor (Some dd))) ->
  heap s !! dd = Some (ObjCursorData cd) ->
  bo cd = Some cbo -> heap s !! cbo = Some (ObjBO gb) ->
  let r := KMSDRM_FreeCursor answer (Some c) s in
  ctl r = Next tt /\
  final r = set_heap (fun hp => delete c (delete dd (delete cbo hp))) s /\
  trace r =
    (if bool_decide (crtc_id cd ≠ 0)
     then [E_drmModeSetCursor (bo_device_fd gb) (crtc_id cd) 0 0 0 answer]
     else []) ++ [E_gbm_bo_destroy cbo; E_free dd; E_free c].
Proof.
  intros Hc Hd Hbo Hcbo r. subst r. destruct s as [mo hp fd]. cbn in Hc, Hd, Hcbo.
  assert (c ≠ dd) by congruence. assert (c ≠ cbo) by congruence.
  assert (dd ≠ cbo) by congruence.
  wp_start (KMSDRM_FreeCursor answer (Some c) (MkWorld mo hp fd)).
  unfold KMSDRM_FreeCursor.
  repeat cursor_step'.
  all: repeat case_bool_decide; prune.
  all: split; [done|]; split; [|done].
  all: unfold set_heap; cbn; f_equal; apply map_eq; intros ?;
    repeat first [rewrite lookup_delete | rewrite lookup_insert];
    repeat case_decide; subst; congruence.
Qed.

(** X5: [KMSDRM_FreeCursor] on a cursor with driver data and a buffer
    object returns with the cursor, its driver data and its buffer object
    released and nothing else changed.  When the cursor is shown on a
    controller it is first hidden on that controller, through the device of
    its buffer object; when it is not shown no request goes to the
    kernel.  After that, in this order, the buffer object is destroyed, the
    driver data freed and the cursor freed, and these are all the calls.
    What the kernel answers to the hide changes nothing. *)
Theorem FreeCursor_releases_cursor (answer : Z) (s : World) c dd cd cbo gb :
  heap s !! c = Some (ObjCursor (Cursor (Some dd))) ->
  heap s !! dd = Some (ObjCursorData cd) ->
  bo cd = Some cbo -> heap s !! cbo = Some (ObjBO gb) ->
  let r := KMSDRM_FreeCursor answer (Some c) s in
  ctl r = Next tt /\
  heap (final r) !! c = None /\ heap (final r) !! dd = None /\
  heap (final r) !! cbo = None /\
  (forall p, p ≠ c -> p ≠ dd -> p ≠ cbo -> heap (final r) !! p = heap s !! p) /\
  mouse (final r) = mouse s /\
  trace r =
    (if bool_decide (crtc_id cd ≠ 0)
     then [E_drmModeSetCursor (bo_device_fd gb) (crtc_id cd) 0 0 0 answer]
     else []) ++ [E_gbm_bo_destroy cbo; E_free dd; E_free c] /\
  List.filter is_set_cursor (trace r) =
    (if bool_decide (crtc_id cd ≠ 0)
     then [E_drmModeSetCursor (bo_device_fd gb) (crtc_id cd) 0 0 0 answer]
     else []).
Proof.
  intros Hc Hd Hbo Hcbo r. subst r.
  destruct (FreeCursor_run answer s c dd cd cbo gb) as (Hctl & Hfin & Htr); auto.
  rewrite Hfin, Htr. destruct s as [mo hp fd]. unfold set_heap. cbn.
  split; [done|].
  split; [by rewrite lookup_delete_eq|].
  split; [by rewrite lookup_delete, decide_False, lookup_delete_eq by congruence|].
  split.
  { rewrite !lookup_delete. repeat case_decide; try done. }
  split.
  { intros p ? ? ?. by rewrite !lookup_delete_ne. }
  split; [done|]. split; [done|].
  case_bool_decide; done.
Qed.

Lemma FreeCursor_releases_cursor_witness :
  let r := KMSDRM_FreeCursor (-1) (Some 1%positive) shown_world in
  ctl r = Next tt /\
  heap (final r) !! 1%positive = None /\ heap (final r) !! 2%positive = None /\
  heap (final r) !! 3%positive = None /\
  (forall p, p ≠ 1%positive -> p ≠ 2%positive -> p ≠ 3%positive ->
     heap (final r) !! p = heap shown_world !! p) /\
  mouse (final r) = mouse shown_world /\
  trace r =
    (if bool_decide (crtc_id (CursorData (Some 3%positive) 42 0 0 64 64) ≠ 0)
     then [E_drmModeSetCursor (bo_device_fd (GbmBo 256 77 3))
             (crtc_id (CursorData (Some 3%positive) 42 0 0 64 64)) 0 0 0 (-1)]
     else []) ++ [E_gbm_bo_destroy 3%positive; E_free 2%positive; E_free 1%positive] /\
  List.filter is_set_cursor (trace r) =
    (if bool_decide (crtc_id (CursorData (Some 3%positive) 42 0 0 64 64) ≠ 0)
     then [E_drmModeSetCursor (bo_device_fd (GbmBo 256 77 3))
             (crtc_id (CursorData (Some 3%positive) 42 0 0 64 64)) 0 0 0 (-1)]
     else []).
Proof.
  apply (FreeCursor_releases_cursor (-1) shown_world 1%positive 2%positive
           (CursorData (Some 3%positive) 42 0 0 64 64) 3%positive (GbmBo 256 77 3));
    reflexivity.
Defined.

(** X6: a cursor returned by [KMSDRM_CreateCursor] and then handed to
    [KMSDRM_FreeCursor] leaves the state as it was before the creation, and
    the release sends no request for the hardware cursor to the kernel. *)
Theorem CreateCursor_then_FreeCursor (env : CreateAnswers) (surface : SDL_Surface)
    (hotx hoty answer : Z) (s : World) (c : ptr) :
  let r := KMSDRM_CreateCursor env surface hotx hoty s in
  ctl r = Returned (Some c) ->
  let r' := KMSDRM_FreeCursor answer (Some c) (final r) in
  ctl r' = Next tt /\ final r' = s /\ List.filter is_set_cursor (trace r') = [].
Proof.
  intros r Hret r'. subst r r'.
  destruct (CreateCursor_success _ _ _ _ _ _ Hret)
    as (dd & cbo & g & Hg & Hc & Hdd & Hcbo & Hn1 & Hn2 & Hn3 & -> & _ & _ & _).
  destruct s as [mo hp fd]. cbn in Hc, Hdd, Hcbo.
  set (cd := CursorData (Some cbo) 0 hotx hoty (s32 (cap_cursor_width env).2)
                        (s32 (cap_cursor_height env).2)).
  set (s1 := set_heap _ _).
  destruct (FreeCursor_run answer s1 c dd cd cbo g) as (Hctl & Hfin & Htr).
  - subst s1. cbn. apply lookup_insert_eq.
  - subst s1. cbn. rewrite lookup_insert_ne by done. apply lookup_insert_eq.
  - reflexivity.
  - subst s1. cbn. rewrite !lookup_insert_ne by done. apply lookup_insert_eq.
  - rewrite Hctl, Hfin, Htr. split; [done|]. split; [|done].
    subst s1. unfold set_heap. cbn. f_equal. apply map_eq; intros ?.
    repeat first [rewrite lookup_delete | rewrite lookup_insert];
      repeat case_decide; subst; congruence.
Qed.

Lemma CreateCursor_then_FreeCursor_witness :
  let r := KMSDRM_CreateCursor answers_64x64 surface_2x2 0 0 unfocused_world in
  let r' := KMSDRM_FreeCursor 0 (Some 4%positive) (final r) in
  ctl r' = Next tt /\ final r' = unfocused_world /\
  List.filter is_set_cursor (trace r') = [].
Proof.
  apply (CreateCursor_then_FreeCursor answers_64x64 surface_2x2 0 0 0 unfocused_world
           4%positive).
  vm_compute. reflexivity.
Defined.

(** *** [KMSDRM_ShowCursor], continued *)

(** X7: a call of [KMSDRM_ShowCursor] that returns an error (a value other
    than 0) leaves the state as it was, whether it was to show or to hide;
    and no call makes more than one request for the hardware cursor. *)
Theorem ShowCursor_error_changes_nothing (answer : Z) (cursor : option ptr)
    (s : World) :
  let r := KMSDRM_ShowCursor answer cursor s in
  (length (List.filter is_set_cursor (trace r)) <= 1)%nat /\
  (forall v, ctl r = Returned v -> v ≠ 0 -> final r = s).
Proof.
  intros r. subst r. destruct s as [mo hp fd].
  wp_start (KMSDRM_ShowCursor answer cursor (MkWorld mo hp fd)).
  unfold KMSDRM_ShowCursor.
  wp_run.
  all: split; [cbn; lia | intros v [= <-] Hv; prune; done].
Qed.

Lemma ShowCursor_error_changes_nothing_witness :
  let r := KMSDRM_ShowCursor (-13) (Some 1%positive) focused_world in
  (length (List.filter is_set_cursor (trace r)) <= 1)%nat /\
  final r = focused_world.
Proof.
  destruct (ShowCursor_error_changes_nothing (-13) (Some 1%positive) focused_world)
    as [Hone Herr].
  split; [exact Hone|]. apply (Herr (-13)); [vm_compute; reflexivity | lia].
Defined.

(** X8: showing a cursor that has driver data and a buffer object, the
    focused window having a display with driver data, makes exactly one
    request, on the controller of that display, with the handle of the
    buffer object and the dimensions of the cursor: [drmModeSetCursor]
    when the hot spot is (0,0), [drmModeSetCursor2] with the hot spot
    otherwise; the call returns what the kernel answered. *)
Theorem ShowCursor_request (answer : Z) (c : ptr) (s : World) m disp dd cd cbo gb :
  mouse s = Some m -> focus_dispdata m = Some disp ->
  heap s !! c = Some (ObjCursor (Cursor (Some dd))) ->
  heap s !! dd = Some (ObjCursorData cd) ->
  bo cd = Some cbo -> heap s !! cbo = Some (ObjBO gb) ->
  let r := KMSDRM_ShowCursor answer (Some c) s in
  ctl r = Returned answer /\
  List.filter is_set_cursor (trace r) =
    [if bool_decide (hot_x cd = 0) && bool_decide (hot_y cd = 0)
     then E_drmModeSetCursor (drm_fd s) (disp_crtc_id disp) (bo_handle gb)
            (w cd) (h cd) answer
     else E_drmModeSetCursor2 (drm_fd s) (disp_crtc_id disp) (bo_handle gb)
            (w cd) (h cd) (hot_x cd) (hot_y cd) answer].
Proof.
  intros Hm Hdisp Hc Hd Hbo Hcbo r. subst r. destruct s as [mo hp fd].
  cbn in Hm, Hc, Hd, Hcbo. subst mo.
  wp_start (KMSDRM_ShowCursor answer (Some c) (MkWorld (Some m) hp fd)).
  unfold KMSDRM_ShowCursor. unfold focus_dispdata in Hdisp.
  wp_run.
  all: repeat match goal with
       | H : ?x = _, H' : context [match ?x with _ => _ end] |- _ => rewrite H in H'
       end; simplify_eq.
  all: cbn; repeat case_bool_decide; prune; split; first [done | f_equal; lia].
Qed.

Lemma ShowCursor_request_witness :
  let r := KMSDRM_ShowCursor 0 (Some 1%positive) focused_world in
  ctl r = Returned 0 /\
  List.filter is_set_cursor (trace r) = [E_drmModeSetCursor 3 42 77 64 64 0].
Proof.
  apply (ShowCursor_request 0 1%positive focused_world
           (MouseData 0 (Some window_on_crtc_42) (Some 1%positive) 10 20)
           (DisplayData 42) 2%positive (CursorData (Some 3%positive) 0 0 0 64 64)
           3%positive (GbmBo 256 77 3)); reflexivity.
Defined.

(** Hiding the current cursor of the mouse when it is shown. *)
Lemma ShowCursor_hide_shown_run (answer : Z) (s : World) m cc dd cd :
  mouse s = Some m -> cur_cursor m = Some cc ->
  heap s !! cc = Some (ObjCursor (Cursor (Some dd))) ->
  heap s !! dd = Some (ObjCursorData cd) ->
  crtc_id cd ≠ 0 ->
  let r := KMSDRM_ShowCursor answer None s in
  ctl r = Returned answer /\
  List.filter is_set_cursor (trace r) =
    [E_drmModeSetCursor (drm_fd s) (crtc_id cd) 0 0 0 answer] /\
  final r = if bool_decide (answer = 0)
            then set_heap <[dd := ObjCursorData (set_crtc_id 0 cd)]> s
            else s.
Proof.
  intros Hm Hcc Hc Hd Hcrtc r. subst r. destruct s as [mo hp fd].
  cbn in Hm, Hc, Hd. subst mo.
  wp_start (KMSDRM_ShowCursor answer None (MkWorld (Some m) hp fd)).
  unfold KMSDRM_ShowCursor.
  wp_run.
  all: cbn; repeat case_bool_decide; prune; repeat split; first [done | f_equal; lia].
Qed.

(** X9: hiding when the current cursor of the mouse is shown asks the
    kernel to remove the cursor from the controller recorded in the cursor,
    whatever window has the focus; when the kernel accepts, the
    owning-controller field becomes 0 and 0 is returned; when it refuses,
    the field stays and the kernel's answer is returned. *)
Theorem ShowCursor_hide_shown (answer : Z) (s : World) m cc dd cd :
  mouse s = Some m -> cur_cursor m = Some cc ->
  heap s !! cc = Some (ObjCursor (Cursor (Some dd))) ->
  heap s !! dd = Some (ObjCursorData cd) ->
  crtc_id cd ≠ 0 ->
  let r := KMSDRM_ShowCursor answer None s in
  ctl r = Returned answer /\
  List.filter is_set_cursor (trace r) =
    [E_drmModeSetCursor (drm_fd s) (crtc_id cd) 0 0 0 answer] /\
  owning_crtc (final r) cc = Some (if bool_decide (answer = 0) then 0 else crtc_id cd) /\
  (answer ≠ 0 -> final r = s).
Proof.
  intros Hm Hcc Hc Hd Hcrtc r. subst r.
  destruct (ShowCursor_hide_shown_run answer s m cc dd cd) as (Hctl & Htr & Hfin); auto.
  rewrite Hctl, Htr, Hfin. split; [done|]. split; [done|].
  case_bool_decide.
  - split; [|done]. by apply owning_crtc_recorded.
  - split; [|done]. unfold owning_crtc. by rewrite Hc, Hd.
Qed.

Lemma ShowCursor_hide_shown_witness :
  let r := KMSDRM_ShowCursor 0 None shown_world in
  ctl r = Returned 0 /\
  List.filter is_set_cursor (trace r) = [E_drmModeSetCursor 3 42 0 0 0 0] /\
  owning_crtc (final r) 1%positive = Some 0.
Proof.
  destruct (ShowCursor_hide_shown 0 shown_world
              (MouseData 0 (Some window_on_crtc_42) (Some 1%positive) 10 20)
              1%positive 2%positive (CursorData (Some 3%positive) 42 0 0 64 64))
    as (H1 & H2 & H3 & _); try reflexivity.
  - cbn. lia.
  - repeat split; assumption.
Defined.

(** X10: showing the hidden current cursor of the mouse on a controller with
    a non-zero id and then hiding, the kernel accepting both, records the
    controller after the show, addresses the hide to that controller, and
    brings the state back to what it was before the show. *)
Theorem ShowCursor_show_then_hide (s : World) m disp c dd cd cbo gb :
  mouse s = Some m -> cur_cursor m = Some c -> focus_dispdata m = Some disp ->
  disp_crtc_id disp ≠ 0 ->
  heap s !! c = Some (ObjCursor (Cursor (Some dd))) ->
  heap s !! dd = Some (ObjCursorData cd) -> crtc_id cd = 0 ->
  bo cd = Some cbo -> heap s !! cbo = Some (ObjBO gb) ->
  let r1 := KMSDRM_ShowCursor 0 (Some c) s in
  let r2 := KMSDRM_ShowCursor 0 None (final r1) in
  ctl r1 = Returned 0 /\ owning_crtc (final r1) c = Some (disp_crtc_id disp) /\
  ctl r2 = Returned 0 /\
  List.filter is_set_cursor (trace r2) =
    [E_drmModeSetCursor (drm_fd s) (disp_crtc_id disp) 0 0 0 0] /\
  final r2 = s.
Proof.
  intros Hm Hcc Hdisp Hk Hc Hd Hcrtc Hbo Hcbo r1 r2. subst r1 r2.
  destruct (ShowCursor_show_run 0 c s m disp dd cd cbo gb) as [Hctl1 Hfin1]; auto.
  rewrite bool_decide_true in Hfin1 by done. rewrite Hctl1, Hfin1.
  set (k := disp_crtc_id disp) in *.
  set (s1 := set_heap <[dd := ObjCursorData (set_crtc_id k cd)]> s).
  assert (dd ≠ c) by congruence.
  destruct (ShowCursor_hide_shown_run 0 s1 m c dd (set_crtc_id k cd))
    as (Hctl2 & Htr2 & Hfin2).
  { by destruct s. }
  { done. }
  { destruct s; cbn in *. by rewrite lookup_insert_ne. }
  { destruct s; cbn in *. by rewrite lookup_insert_eq. }
  { done. }
  rewrite bool_decide_true in Hfin2 by done. rewrite Hctl2, Htr2, Hfin2.
  split; [done|]. split; [by apply owning_crtc_recorded|]. split; [done|].
  split; [by destruct s|].
  subst s1. destruct s as [mo hp fd], cd as [b0 k0 hx hy cw ch].
  unfold set_heap, set_crtc_id. cbn in *. subst k0.
  rewrite insert_insert_eq. by rewrite insert_id.
Qed.

Lemma ShowCursor_show_then_hide_witness :
  let r1 := KMSDRM_ShowCursor 0 (Some 1%positive) focused_world in
  let r2 := KMSDRM_ShowCursor 0 None (final r1) in
  ctl r1 = Returned 0 /\ owning_crtc (final r1) 1%positive = Some 42 /\
  ctl r2 = Returned 0 /\
  List.filter is_set_cursor (trace r2) = [E_drmModeSetCursor 3 42 0 0 0 0] /\
  final r2 = focused_world.
Proof.
  apply (ShowCursor_show_then_hide focused_world
           (MouseData 0 (Some window_on_crtc_42) (Some 1%positive) 10 20)
           (DisplayData 42) 1%positive 2%positive
           (CursorData (Some 3%positive) 0 0 0 64 64) 3%positive (GbmBo 256 77 3));
    try reflexivity.
  cbn. lia.
Defined.

(** *** [KMSDRM_MoveCursor] *)

(** Moving when the mouse has a current cursor with driver data and a
    buffer object. *)
Lemma MoveCursor_run (answer : Z) (arg : option ptr) (s : World) m cc dd cd cbo gb :
  mouse s = Some m -> cur_cursor m = Some cc ->
  heap s !! cc = Some (ObjCursor (Cursor (Some dd))) ->
  heap s !! dd = Some (ObjCursorData cd) ->
  bo cd = Some cbo -> heap s !! cbo = Some (ObjBO gb) ->
  let r := KMSDRM_MoveCursor answer arg s in
  ctl r = Next tt /\ final r = s /\
  List.filter is_move (trace r) =
    [E_drmModeMoveCursor (bo_device_fd gb) (crtc_id cd) (x m) (y m) answer].
Proof.
  intros Hm Hcc Hc Hd Hbo Hcbo r. subst r. destruct s as [mo hp fd].
  cbn in Hm, Hc, Hd, Hcbo. subst mo.
  wp_start (KMSDRM_MoveCursor answer arg (MkWorld (Some m) hp fd)).
  unfold KMSDRM_MoveCursor, mouse_with_cursor.
  wp_run.
  all: simplify_eq/=; prune; done.
Qed.

(** X11: [KMSDRM_MoveCursor] never changes the state and never sends a
    motion event, whatever the state and its argument; when the mouse has
    a current cursor with driver data and a buffer object, it asks the
    kernel once to move the cursor of the recorded controller to the
    tracked position of the mouse, and when there is no mouse, no current
    cursor or no driver data it makes no call at all. *)
Theorem MoveCursor_moves_graphic_only (answer : Z) (arg : option ptr) (s : World) :
  let r := KMSDRM_MoveCursor answer arg s in
  final r = s /\
  List.filter is_motion (trace r) = [] /\
  (forall m cc dd cd cbo gb,
     mouse s = Some m -> cur_cursor m = Some cc ->
     heap s !! cc = Some (ObjCursor (Cursor (Some dd))) ->
     heap s !! dd = Some (ObjCursorData cd) ->
     bo cd = Some cbo -> heap s !! cbo = Some (ObjBO gb) ->
     ctl r = Next tt /\
     List.filter is_move (trace r) =
       [E_drmModeMoveCursor (bo_device_fd gb) (crtc_id cd) (x m) (y m) answer]) /\
  (no_current_cursor s -> ctl r = Next tt /\ trace r = []).
Proof.
  intros r. split; [|split; [|split]].
  - subst r. destruct s as [mo hp fd].
    wp_start (KMSDRM_MoveCursor answer arg (MkWorld mo hp fd)).
    unfold KMSDRM_MoveCursor, mouse_with_cursor. wp_run. all: done.
  - subst r. destruct s as [mo hp fd].
    wp_start (KMSDRM_MoveCursor answer arg (MkWorld mo hp fd)).
    unfold KMSDRM_MoveCursor, mouse_with_cursor. wp_run. all: done.
  - intros m cc dd cd cbo gb Hm Hcc Hc Hd Hbo Hcbo.
    destruct (MoveCursor_run answer arg s m cc dd cd cbo gb) as (? & ? & ?); auto.
  - subst r. unfold no_current_cursor. destruct s as [mo hp fd]. cbn.
    wp_start (KMSDRM_MoveCursor answer arg (MkWorld mo hp fd)).
    unfold KMSDRM_MoveCursor, mouse_with_cursor. wp_run.
    all: intros; simplify_eq/=; prune; auto.
Qed.

Lemma MoveCursor_moves_graphic_only_witness :
  let r := KMSDRM_MoveCursor 0 None shown_world in
  ctl r = Next tt /\
  List.filter is_move (trace r) = [E_drmModeMoveCursor 3 42 10 20 0].
Proof.
  apply (proj1 (proj2 (proj2 (MoveCursor_moves_graphic_only 0 None shown_world)))
           (MouseData 0 (Some window_on_crtc_42) (Some 1%positive) 10 20)
           1%positive 2%positive (CursorData (Some 3%positive) 42 0 0 64 64)
           3%positive (GbmBo 256 77 3)); reflexivity.
Defined.

(** X12: after [KMSDRM_WarpMouseGlobal(x,y)] on a cursor that is shown,
    [KMSDRM_MoveCursor] asks for the very position (x,y) on the same
    controller and device that the warp asked for: the tracked position
    and the hardware cursor agree. *)
Theorem WarpMouseGlobal_then_MoveCursor (a1 a2 wx wy : Z) (arg : option ptr)
    (s : World) m cc dd cd cbo gb :
  mouse s = Some m -> cur_cursor m = Some cc ->
  heap s !! cc = Some (ObjCursor (Cursor (Some dd))) ->
  heap s !! dd = Some (ObjCursorData cd) ->
  bo cd = Some cbo -> heap s !! cbo = Some (ObjBO gb) -> crtc_id cd ≠ 0 ->
  let r1 := KMSDRM_WarpMouseGlobal a1 wx wy s in
  let r2 := KMSDRM_MoveCursor a2 arg (final r1) in
  List.filter is_move (trace r1) =
    [E_drmModeMoveCursor (bo_device_fd gb) (crtc_id cd) wx wy a1] /\
  List.filter is_move (trace r2) =
    [E_drmModeMoveCursor (bo_device_fd gb) (crtc_id cd) wx wy a2] /\
  final r2 = final r1.
Proof.
  intros Hm Hcc Hc Hd Hbo Hcbo Hcrtc r1 r2. subst r2.
  assert (Hr1 : List.filter is_move (trace r1) =
                  [E_drmModeMoveCursor (bo_device_fd gb) (crtc_id cd) wx wy a1] /\
                mouse (final r1) =
                  Some (MouseData (mouseID m) (focus m) (cur_cursor m) wx wy) /\
                heap (final r1) = heap s).
  { subst r1. destruct s as [mo hp fd]. cbn in Hm, Hc, Hd, Hcbo. subst mo.
    wp_start (KMSDRM_WarpMouseGlobal a1 wx wy (MkWorld (Some m) hp fd)).
    unfold KMSDRM_WarpMouseGlobal, mouse_with_cursor. wp_run.
    all: simplify_eq/=; prune; rewrite ?Hcc; done. }
  destruct Hr1 as (Htr1 & Hm1 & Hh1). split; [done|].
  destruct (MoveCursor_run a2 arg (final r1)
              (MouseData (mouseID m) (focus m) (cur_cursor m) wx wy) cc dd cd cbo gb)
    as (_ & Hfin & Htr); rewrite ?Hh1; auto.
Qed.

Lemma WarpMouseGlobal_then_MoveCursor_witness :
  let r1 := KMSDRM_WarpMouseGlobal 0 5 7 shown_world in
  let r2 := KMSDRM_MoveCursor 0 None (final r1) in
  List.filter is_move (trace r1) = [E_drmModeMoveCursor 3 42 5 7 0] /\
  List.filter is_move (trace r2) = [E_drmModeMoveCursor 3 42 5 7 0] /\
  final r2 = final r1.
Proof.
  apply (WarpMouseGlobal_then_MoveCursor 0 0 5 7 None shown_world
           (MouseData 0 (Some window_on_crtc_42) (Some 1%positive) 10 20)
           1%positive 2%positive (CursorData (Some 3%positive) 42 0 0 64 64)
           3%positive (GbmBo 256 77 3)); try reflexivity.
  cbn. lia.
Defined.

(** X13: [KMSDRM_MoveCursor] does not look whether the cursor is shown.
    On a cursor that is hidden (its recorded controller is 0) it still asks
    the kernel to move the cursor of controller 0, and reports the refusal
    of the kernel; [KMSDRM_WarpMouseGlobal] in the same state asks for no
    move and reports that the cursor is not shown. *)
Theorem MoveCursor_does_not_check_shown (answer wx wy : Z) (arg : option ptr)
    (s : World) m cc dd cd cbo gb :
  mouse s = Some m -> cur_cursor m = Some cc ->
  heap s !! cc = Some (ObjCursor (Cursor (Some dd))) ->
  heap s !! dd = Some (ObjCursorData cd) ->
  bo cd = Some cbo -> heap s !! cbo = Some (ObjBO gb) ->
  crtc_id cd = 0 -> answer ≠ 0 ->
  trace (KMSDRM_MoveCursor answer arg s) =
    [E_drmModeMoveCursor (bo_device_fd gb) 0 (x m) (y m) answer;
     E_SetError "drmModeMoveCursor() failed."] /\
  List.filter is_move (trace (KMSDRM_WarpMouseGlobal answer wx wy s)) = [] /\
  last (trace (KMSDRM_WarpMouseGlobal answer wx wy s)) =
    Some (E_SetError "Cursor is not currently shown.").
Proof.
  intros Hm Hcc Hc Hd Hbo Hcbo Hcrtc Hans. destruct s as [mo hp fd].
  cbn in Hm, Hc, Hd, Hcbo. subst mo. split; [|split].
  - wp_start (KMSDRM_MoveCursor answer arg (MkWorld (Some m) hp fd)).
    unfold KMSDRM_MoveCursor, mouse_with_cursor. wp_run.
    all: simplify_eq/=; prune. all: rewrite Hcrtc; done.
  - wp_start (KMSDRM_WarpMouseGlobal answer wx wy (MkWorld (Some m) hp fd)).
    unfold KMSDRM_WarpMouseGlobal, mouse_with_cursor. wp_run.
    all: simplify_eq/=; prune; done.
  - wp_start (KMSDRM_WarpMouseGlobal answer wx wy (MkWorld (Some m) hp fd)).
    unfold KMSDRM_WarpMouseGlobal, mouse_with_cursor. wp_run.
    all: simplify_eq/=; prune; done.
Qed.

Lemma MoveCursor_does_not_check_shown_witness :
  trace (KMSDRM_MoveCursor (-22) None focused_world) =
    [E_drmModeMoveCursor 3 0 10 20 (-22); E_SetError "drmModeMoveCursor() failed."] /\
  List.filter is_move (trace (KMSDRM_WarpMouseGlobal (-22) 5 7 focused_world)) = [] /\
  last (trace (KMSDRM_WarpMouseGlobal (-22) 5 7 focused_world)) =
    Some (E_SetError "Cursor is not currently shown.").
Proof.
  apply (MoveCursor_does_not_check_shown (-22) 5 7 None focused_world
           (MouseData 0 (Some window_on_crtc_42) (Some 1%positive) 10 20)
           1%positive 2%positive (CursorData (Some 3%positive) 0 0 0 64 64)
           3%positive (GbmBo 256 77 3)); try reflexivity.
  lia.
Defined.

End CursorCoverage.

(** ** The frame presenter, continued *)

(** Where an element can sit in a list that is written out. *)
Lemma nil_eq_app_cons {A} (x : A) (pre post : list A) :
  [] = pre ++ x :: post -> False.
Proof. destruct pre; discriminate. Qed.

Lemma cons_eq_app_cons {A} (e x : A) (l pre post : list A) :
  e :: l = pre ++ x :: post ->
  (pre = [] /\ e = x /\ l = post) \/
  (exists pre', pre = e :: pre' /\ l = pre' ++ x :: post).
Proof.
  destruct pre as [|e' pre]; cbn; intros [= -> ->]; [left | right]; eauto.
Qed.

Module PresenterCoverage.
Import GLES.

Ltac some_facts :=
  repeat match goal with
  | H : ~ _ ≠ _ |- _ => apply dec_stable in H
  | H : is_Some _ |- _ => destruct H as [? H]
  | H : _ /\ _ |- _ => destruct H
  end.

Ltac no_fence := exfalso; match goal with H : ¬ is_Some _ |- _ => apply H; eauto end.

(** The places of a call in the trace of a path. *)
Ltac unzip H :=
  lazymatch type of H with
  | [] = _ ++ _ :: _ => destruct (nil_eq_app_cons _ _ _ H)
  | _ :: _ = _ ++ _ :: _ =>
      let H' := fresh "Hz" in
      destruct (cons_eq_app_cons _ _ _ _ _ H) as [(-> & H' & <-) | (? & -> & H')];
      [ first [discriminate H' | injection H' as ?; subst]
      | clear H; unzip H' ]
  end.

(** X14: [KMSDRM_GLES_SwapWindow] returns 0 exactly when EGL is there and
    the GPU fence, the swap, the fence descriptor, the lock, the
    framebuffer, the plane request, the two fence properties, the atomic
    commit and the KMS fence all succeed; whether the connector and CRTC
    properties could be added does not matter.  The value it returns is 0
    or -1, never the error code of the kernel, and a return of -1 has just
    reported an error. *)
Theorem SwapWindow_success_iff (env : SwapAnswers) (s : World) :
  let r := KMSDRM_GLES_SwapWindow env s in
  (ctl r = Returned 0 <->
     is_Some (egl_data s) /\ is_Some (gpu_fence_created env) /\
     swap_buffers env = true /\ dup_fence_fd env ≠ -1 /\
     is_Some (front_buffer env) /\ is_Some (framebuffer env) /\
     plane_props env = 0 /\ 0 <= crtc_out_fence_ptr env /\
     0 <= plane_in_fence_fd env /\ atomic_commit env = 0 /\
     is_Some (kms_fence_created env))
  /\ (forall v, ctl r = Returned v -> v = 0 \/ v = -1)
  /\ (ctl r = Returned (-1) -> exists msg, last (trace r) = Some (E_SetError msg)).
Proof.
  intros r. subst r. destruct s as [egl wd dd].
  wp_start (KMSDRM_GLES_SwapWindow env (MkWorld egl wd dd)).
  unfold KMSDRM_GLES_SwapWindow. wp_run.
  all: cbn; some_facts.
  all: split; [split; [intros Hr; try discriminate Hr | intros Hall; some_facts; prune]
              | split; [intros v Hv; simplify_eq; auto; try lia
                       | intros Hr; try discriminate Hr; simplify_eq; try lia; eauto ]].
  all: try (repeat split; eauto; try lia; try congruence).
  all: try (f_equal; congruence).
  all: try no_fence.
Qed.

(** X15: [KMSDRM_GLES_SwapWindowDB] returns 0 exactly when EGL is there and
    the lock, the framebuffer, the plane request and the atomic commit
    succeed: whether [eglSwapBuffers] succeeded does not matter, nor whether
    the connector and CRTC properties could be added.  The value it returns
    is 0 or -1, and a return of -1 has just reported an error. *)
Theorem SwapWindowDB_success_iff (env : SwapAnswers) (s : World) :
  let r := KMSDRM_GLES_SwapWindowDB env s in
  (ctl r = Returned 0 <->
     is_Some (egl_data s) /\ is_Some (front_buffer env) /\
     is_Some (framebuffer env) /\ plane_props env = 0 /\ atomic_commit env = 0)
  /\ (forall v, ctl r = Returned v -> v = 0 \/ v = -1)
  /\ (ctl r = Returned (-1) -> exists msg, last (trace r) = Some (E_SetError msg)).
Proof.
  intros r. subst r. destruct s as [egl wd dd].
  wp_start (KMSDRM_GLES_SwapWindowDB env (MkWorld egl wd dd)).
  unfold KMSDRM_GLES_SwapWindowDB. wp_run.
  all: cbn; some_facts.
  all: split; [split; [intros Hr; try discriminate Hr | intros Hall; some_facts; prune]
              | split; [intros v Hv; simplify_eq; auto; try lia
                       | intros Hr; try discriminate Hr; simplify_eq; try lia; eauto ]].
  all: try (repeat split; eauto; try lia; try congruence).
  all: try (f_equal; congruence).
Qed.

(** X16: a call of [KMSDRM_GLES_SwapWindow] that returns 0 has used the
    fences in this order: the GPU fence is created without a descriptor,
    its descriptor is taken after the swap and the fence destroyed; the
    descriptor is what the plane gets as IN_FENCE_FD, and the address of
    [kms_out_fence_fd] what the CRTC gets as OUT_FENCE_PTR; the KMS fence is
    created from the descriptor the kernel stored there, and waiting on it
    is the last call.  At the end [kms_out_fence_fd] is -1 again, and
    [gpu_fence] still names the destroyed fence. *)
Theorem SwapWindow_fence_protocol (env : SwapAnswers) (s : World) :
  let r := KMSDRM_GLES_SwapWindow env s in
  ctl r = Returned 0 ->
  List.filter is_sync (trace r) =
    [E_eglCreateSyncKHR EGL_NO_NATIVE_FENCE_FD_ANDROID (gpu_fence_created env);
     E_eglDupNativeFenceFDANDROID (gpu_fence_created env) (dup_fence_fd env);
     E_eglDestroySyncKHR (gpu_fence_created env);
     E_eglCreateSyncKHR (out_fence_fd env) (kms_fence_created env);
     E_eglWaitSyncKHR (kms_fence_created env)] /\
  last (trace r) = Some (E_eglWaitSyncKHR (kms_fence_created env)) /\
  In (E_add_crtc_property (crtc_id (dispdata s)) "OUT_FENCE_PTR"
        (kms_out_fence_fd_addr (dispdata s)) (crtc_out_fence_ptr env)) (trace r) /\
  In (E_add_plane_property (display_plane (dispdata s)) "IN_FENCE_FD"
        (dup_fence_fd env) (plane_in_fence_fd env)) (trace r) /\
  dispdata (final r) =
    DisplayData (gpu_fence_created env) (kms_fence_created env) (dup_fence_fd env) (-1)
                (kms_out_fence_fd_addr (dispdata s)) (display_plane (dispdata s))
                (crtc_id (dispdata s)) (connector (dispdata s)).
Proof.
  intros r. subst r. destruct s as [egl wd dd].
  wp_start (KMSDRM_GLES_SwapWindow env (MkWorld egl wd dd)).
  unfold KMSDRM_GLES_SwapWindow. wp_run.
  all: cbn; intros Hr; try discriminate Hr; some_facts.
  all: repeat match goal with H : _ = Some _ |- _ => rewrite H end.
  all: repeat split; try find_event.
Qed.

Lemma SwapWindow_fence_protocol_witness :
  let r := KMSDRM_GLES_SwapWindow all_succeed showing_bo_7 in
  List.filter is_sync (trace r) =
    [E_eglCreateSyncKHR (-1) (Some 1%positive);
     E_eglDupNativeFenceFDANDROID (Some 1%positive) 5;
     E_eglDestroySyncKHR (Some 1%positive);
     E_eglCreateSyncKHR 6 (Some 2%positive);
     E_eglWaitSyncKHR (Some 2%positive)] /\
  last (trace r) = Some (E_eglWaitSyncKHR (Some 2%positive)) /\
  In (E_add_crtc_property 42 "OUT_FENCE_PTR" 4096 0) (trace r) /\
  In (E_add_plane_property 31 "IN_FENCE_FD" 5 0) (trace r) /\
  dispdata (final r) = DisplayData (Some 1%positive) (Some 2%positive) 5 (-1) 4096 31 42 53.
Proof. apply (SwapWindow_fence_protocol all_succeed showing_bo_7). reflexivity. Defined.

(** X17: [KMSDRM_GLES_SwapWindowDB] uses no fence: it makes no call on a
    sync object, adds neither OUT_FENCE_PTR nor any plane property, leaves
    the data of the display and the EGL data as they were, never stops at an
    assertion, and any commit it issues is a blocking one. *)
Theorem SwapWindowDB_uses_no_fence (env : SwapAnswers) (s : World) :
  let r := KMSDRM_GLES_SwapWindowDB env s in
  List.filter is_sync (trace r) = [] /\
  (forall obj name v ret, ~ In (E_add_plane_property obj name v ret) (trace r)) /\
  (forall obj v ret, ~ In (E_add_crtc_property obj "OUT_FENCE_PTR" v ret) (trace r)) /\
  (forall blk ret, In (E_atomic_commit blk ret) (trace r) -> blk = true) /\
  dispdata (final r) = dispdata s /\ egl_data (final r) = egl_data s /\
  ctl r ≠ AssertFailed.
Proof.
  intros r. subst r. destruct s as [egl wd dd].
  wp_start (KMSDRM_GLES_SwapWindowDB env (MkWorld egl wd dd)).
  unfold KMSDRM_GLES_SwapWindowDB. wp_run.
  all: cbn; repeat split; try done.
  all: intros; try (intros Hin; cbn in Hin); trace_facts; try done.
Qed.

(** X18: a call of either present function that returns an error has
    released no buffer and has left [windata->bo], the KMS fence and
    [kms_out_fence_fd] as they were; a buffer it locked is recorded in
    [windata->next_bo] and stays locked. *)
Theorem failed_present_keeps_front_buffer (env : SwapAnswers) (s : World) (v : Z) :
  v ≠ 0 ->
  (let r := KMSDRM_GLES_SwapWindow env s in
   ctl r = Returned v ->
   releases (trace r) = [] /\ bo (windata (final r)) = bo (windata s) /\
   kms_fence (dispdata (final r)) = kms_fence (dispdata s) /\
   kms_out_fence_fd (dispdata (final r)) = kms_out_fence_fd (dispdata s) /\
   (forall b, In (E_lock_front_buffer b) (trace r) -> next_bo (windata (final r)) = b))
  /\
  (let r := KMSDRM_GLES_SwapWindowDB env s in
   ctl r = Returned v ->
   releases (trace r) = [] /\ bo (windata (final r)) = bo (windata s) /\
   (forall b, In (E_lock_front_buffer b) (trace r) -> next_bo (windata (final r)) = b)).
Proof.
  intros Hv. split.
  - intros r. subst r. destruct s as [egl wd dd].
    wp_start (KMSDRM_GLES_SwapWindow env (MkWorld egl wd dd)).
    unfold KMSDRM_GLES_SwapWindow. wp_run.
    all: cbn; intros Hr; try discriminate Hr; some_facts; simplify_eq; prune.
    all: repeat split; try done.
    all: intros b Hin; trace_facts; congruence.
  - intros r. subst r. destruct s as [egl wd dd].
    wp_start (KMSDRM_GLES_SwapWindowDB env (MkWorld egl wd dd)).
    unfold KMSDRM_GLES_SwapWindowDB. wp_run.
    all: cbn; intros Hr; try discriminate Hr; some_facts; simplify_eq; prune.
    all: repeat split; try done.
    all: intros b Hin; trace_facts; congruence.
Qed.

Lemma failed_present_keeps_front_buffer_witness :
  let r := KMSDRM_GLES_SwapWindow commit_fails showing_bo_7 in
  releases (trace r) = [] /\ bo (windata (final r)) = Some 7%positive /\
  kms_fence (dispdata (final r)) = None /\
  kms_out_fence_fd (dispdata (final r)) = -1 /\
  (forall b, In (E_lock_front_buffer b) (trace r) -> next_bo (windata (final r)) = b).
Proof.
  apply (proj1 (failed_present_keeps_front_buffer commit_fails showing_bo_7 (-1) ltac:(lia))).
  reflexivity.
Defined.

(** X19: the atomic commit of [KMSDRM_GLES_SwapWindow] is the one and only
    of the call and it is a non-blocking one; everything it is to carry has
    been requested before it: after a successful swap, the lock of the new
    front buffer, its framebuffer, the plane request for that framebuffer
    with the geometry of the window, then the connector, CRTC and fence
    properties; no property is added after it. *)
Theorem SwapWindow_one_commit_after_requests (env : SwapAnswers) (s : World) :
  let r := KMSDRM_GLES_SwapWindow env s in
  forall pre blk ret post,
    trace r = pre ++ E_atomic_commit blk ret :: post ->
    blk = false /\ ret = atomic_commit env /\
    count is_commit pre = 0%nat /\ count is_commit post = 0%nat /\
    List.filter is_property post = [] /\
    exists nb fb,
      List.filter is_request pre =
        [E_eglSwapBuffers true; E_lock_front_buffer (Some nb); E_FBFromBO nb (Some fb);
         E_set_plane_props
           (PlaneInfo (display_plane (dispdata s)) (crtc_id (dispdata s)) fb
                      (src_w (windata s)) (src_h (windata s))
                      (output_w (windata s)) (output_h (windata s))
                      (output_x (windata s))) 0;
         E_add_connector_property (connector (dispdata s)) "CRTC_ID"
           (crtc_id (dispdata s)) (connector_crtc_id env);
         E_add_crtc_property (crtc_id (dispdata s)) "ACTIVE" 1 (crtc_active env);
         E_add_crtc_property (crtc_id (dispdata s)) "OUT_FENCE_PTR"
           (kms_out_fence_fd_addr (dispdata s)) (crtc_out_fence_ptr env);
         E_add_plane_property (display_plane (dispdata s)) "IN_FENCE_FD"
           (dup_fence_fd env) (plane_in_fence_fd env)].
Proof.
  intros r. subst r. destruct s as [egl wd dd].
  wp_start (KMSDRM_GLES_SwapWindow env (MkWorld egl wd dd)).
  unfold KMSDRM_GLES_SwapWindow. wp_run.
  all: cbn; intros pre blk ret post Htr; unzip Htr.
  all: some_facts; unfold count, pageflip_info, is_request; cbn.
  all: repeat match goal with H : _ = 0 |- _ => rewrite H end.
  all: do 5 (split; [reflexivity|]); eexists _, _; reflexivity.
Qed.

Lemma SwapWindow_one_commit_after_requests_witness :
  let pre := [E_eglCreateSyncKHR (-1) (Some 1%positive); E_eglSwapBuffers true;
              E_eglDupNativeFenceFDANDROID (Some 1%positive) 5;
              E_eglDestroySyncKHR (Some 1%positive);
              E_lock_front_buffer (Some 8%positive); E_FBFromBO 8%positive (Some 90);
              E_set_plane_props (PlaneInfo 31 42 90 640 480 640 480 0) 0;
              E_add_connector_property 53 "CRTC_ID" 42 0;
              E_add_crtc_property 42 "ACTIVE" 1 0;
              E_add_crtc_property 42 "OUT_FENCE_PTR" 4096 0;
              E_add_plane_property 31 "IN_FENCE_FD" 5 0] in
  let post := [E_release_buffer 7%positive; E_eglCreateSyncKHR 6 (Some 2%positive);
               E_eglWaitSyncKHR (Some 2%positive)] in
  count is_commit pre = 0%nat /\ count is_commit post = 0%nat /\
  List.filter is_property post = [].
Proof.
  intros pre post.
  destruct (SwapWindow_one_commit_after_requests all_succeed showing_bo_7
              pre false 0 post) as (_ & _ & Hpre & Hpost & Hprop & _);
    [reflexivity | auto].
Defined.

(** X20: the atomic commit of [KMSDRM_GLES_SwapWindowDB] is the one and
    only of the call and it is a blocking one; before it come the swap,
    whatever its outcome, the lock of the new front buffer, its framebuffer
    and the plane request for that framebuffer with the geometry of the
    window, then the connector and CRTC properties and no other; no property
    is added after it. *)
Theorem SwapWindowDB_one_commit_after_requests (env : SwapAnswers) (s : World) :
  let r := KMSDRM_GLES_SwapWindowDB env s in
  forall pre blk ret post,
    trace r = pre ++ E_atomic_commit blk ret :: post ->
    blk = true /\ ret = atomic_commit env /\
    count is_commit pre = 0%nat /\ count is_commit post = 0%nat /\
    List.filter is_property post = [] /\
    exists nb fb,
      List.filter is_request pre =
        [E_eglSwapBuffers (swap_buffers env); E_lock_front_buffer (Some nb);
         E_FBFromBO nb (Some fb);
         E_set_plane_props
           (PlaneInfo (display_plane (dispdata s)) (crtc_id (dispdata s)) fb
                      (src_w (windata s)) (src_h (windata s))
                      (output_w (windata s)) (output_h (windata s))
                      (output_x (windata s))) 0;
         E_add_connector_property (connector (dispdata s)) "CRTC_ID"
           (crtc_id (dispdata s)) (connector_crtc_id env);
         E_add_crtc_property (crtc_id (dispdata s)) "ACTIVE" 1 (crtc_active env)].
Proof.
  intros r. subst r. destruct s as [egl wd dd].
  wp_start (KMSDRM_GLES_SwapWindowDB env (MkWorld egl wd dd)).
  unfold KMSDRM_GLES_SwapWindowDB. wp_run.
  all: cbn; intros pre blk ret post Htr; unzip Htr.
  all: some_facts; unfold count, pageflip_info, is_request; cbn.
  all: repeat match goal with H : _ = 0 |- _ => rewrite H end.
  all: repeat match goal with H : swap_buffers _ = _ |- _ => rewrite H end.
  all: do 5 (split; [reflexivity|]); eexists _, _; reflexivity.
Qed.

Lemma SwapWindowDB_one_commit_after_requests_witness :
  let pre := [E_eglSwapBuffers true; E_lock_front_buffer (Some 8%positive);
              E_FBFromBO 8%positive (Some 90);
              E_set_plane_props (PlaneInfo 31 42 90 640 480 640 480 0) 0;
              E_add_connector_property 53 "CRTC_ID" 42 0;
              E_add_crtc_property 42 "ACTIVE" 1 0] in
  let post := [E_release_buffer 7%positive] in
  count is_commit pre = 0%nat /\ count is_commit post = 0%nat /\
  List.filter is_property post = [].
Proof.
  intros pre post.
  destruct (SwapWindowDB_one_commit_after_requests all_succeed showing_bo_7
              pre true 0 post) as (_ & _ & Hpre & Hpost & Hprop & _);
    [reflexivity | auto].
Defined.

(** X21: the three places where [KMSDRM_GLES_SwapWindow] stops at an
    assertion, and what has happened by then.  Without a GPU fence: no step
    of the present, window and display data untouched.  Without a fence
    descriptor: the swap is done and the GPU fence destroyed, no buffer is
    locked.  Without a KMS fence: the commit has succeeded, the old front
    buffer is released and the new one recorded, and [kms_out_fence_fd]
    still holds the descriptor the kernel stored. *)
Theorem SwapWindow_assertions (env : SwapAnswers) (s : World) :
  let r := KMSDRM_GLES_SwapWindow env s in
  ctl r = AssertFailed ->
  (gpu_fence_created env = None /\
   List.filter is_step (trace r) = [] /\
   windata (final r) = windata s /\ dispdata (final r) = dispdata s)
  \/
  (dup_fence_fd env = -1 /\
   List.filter is_step (trace r) = [E_eglSwapBuffers true] /\
   In (E_eglDestroySyncKHR (gpu_fence_created env)) (trace r) /\
   windata (final r) = windata s)
  \/
  (kms_fence_created env = None /\
   In (E_atomic_commit false 0) (trace r) /\
   releases (trace r) = match bo (windata s) with Some b => [b] | None => [] end /\
   bo (windata (final r)) = front_buffer env /\
   kms_out_fence_fd (dispdata (final r)) = out_fence_fd env).
Proof.
  intros r. subst r. destruct s as [egl wd dd].
  wp_start (KMSDRM_GLES_SwapWindow env (MkWorld egl wd dd)).
  unfold KMSDRM_GLES_SwapWindow. wp_run.
  all: cbn; intros Hr; try discriminate Hr; some_facts.
  all: repeat match goal with
       | H : ¬ is_Some ?x |- _ =>
           let E := fresh in
           destruct x eqn:E; [exfalso; apply H; eauto | clear H]
       end; prune.
  all: first
    [ solve [left; repeat split; first [done | congruence]]
    | solve [right; left; repeat split; first [done | congruence | find_event]]
    | right; right;
      repeat match goal with H : _ = 0 |- _ => rewrite H end;
      repeat match goal with H : _ = Some _ |- _ => rewrite H end;
      repeat split; first [done | congruence | find_event] ].
Qed.

Lemma SwapWindow_assertions_witness :
  let r := KMSDRM_GLES_SwapWindow no_kms_fence showing_bo_7 in
  In (E_atomic_commit false 0) (trace r) /\
  releases (trace r) = [7%positive] /\
  bo (windata (final r)) = Some 8%positive /\
  kms_out_fence_fd (dispdata (final r)) = 6.
Proof.
  destruct (SwapWindow_assertions no_kms_fence showing_bo_7) as [H|[H|H]];
    [reflexivity | destruct H as [H _]; discriminate H
    | destruct H as [H _]; discriminate H | apply H].
Defined.

(** *** [KMSDRM_GLES_SetSwapInterval], continued *)

(** X22: two calls of [KMSDRM_GLES_SetSwapInterval] in a row.  Neither
    touches the data of the window or of the display.  Without EGL both
    return -1, the first reporting that EGL is not initialized, and the
    state is as it was.  With EGL and a first interval of 0 or 1, the
    interval stored at the end is the second one when it is 0 or 1, and the
    first one otherwise: a refused request keeps the interval in force. *)
Theorem SetSwapInterval_twice (i1 i2 : Z) (s : World) :
  let r1 := KMSDRM_GLES_SetSwapInterval i1 s in
  let r2 := KMSDRM_GLES_SetSwapInterval i2 (final r1) in
  windata (final r2) = windata s /\ dispdata (final r2) = dispdata s /\
  (egl_data s = None ->
     ctl r1 = Returned (-1) /\ ctl r2 = Returned (-1) /\ final r2 = s /\
     trace r1 = [E_SetError "EGL not initialized"]) /\
  (is_Some (egl_data s) -> i1 = 0 \/ i1 = 1 ->
     ctl r1 = Returned 0 /\
     ctl r2 = Returned (if bool_decide (i2 = 0 \/ i2 = 1) then 0 else -1) /\
     egl_swapinterval <$> egl_data (final r2) =
       Some (if bool_decide (i2 = 0 \/ i2 = 1) then i2 else i1)).
Proof.
  intros r1 r2. subst r1 r2. destruct s as [egl wd dd].
  wp_start (KMSDRM_GLES_SetSwapInterval i1 (MkWorld egl wd dd)).
  unfold KMSDRM_GLES_SetSwapInterval at 1. wp_run.
  all: match goal with
       | |- context [KMSDRM_GLES_SetSwapInterval ?i ?s1] =>
           wp_start (KMSDRM_GLES_SetSwapInterval i s1)
       end.
  all: unfold KMSDRM_GLES_SetSwapInterval; wp_run.
  all: cbn; repeat split; try done.
  all: intros; repeat case_bool_decide; trace_facts; try done; try lia.
Qed.

End PresenterCoverage.
